(** * MACS to HuggingFace converter: the record join of [scripts/macs_to_hf.py]

    A shallow embedding of [smart_read_csv] and of the row-building part of
    [convert_macs_to_hf] (lines 50-84 of the script), with the properties
    of the join proved over it.

    Conventions of the embedding.
    - A Python exception is a value [Exn cls] carrying the name of its class;
      a computation that may raise returns [result A].
    - Objects produced by [yaml.safe_load] and cells handed out by pandas are
      values of the type [value].
    - What the script obtains from the outside world (the text of the
      metadata file, the outcome of [yaml.safe_load]) is an argument of the
      embedded function; [print] calls are dropped, except that the
      [len(yaml_items)] inside one of them can raise and is kept.
    - Paths follow [pathlib.PurePosixPath]. *)

From Stdlib Require Import List String Ascii ZArith Bool Arith Lia.
Import ListNotations.
Local Open Scope string_scope.

Set Implicit Arguments.
Set Warnings "-register-all".

(** ** Exceptions and the error monad *)

Inductive exn : Type := Exn (cls : string).

Definition KeyError : exn := Exn "KeyError".
Definition TypeError : exn := Exn "TypeError".
Definition ValueError : exn := Exn "ValueError".
Definition AttributeError : exn := Exn "AttributeError".
(** [csv.Error], raised by the sniffer. *)
Definition CsvError : exn := Exn "csv.Error".

Inductive result (A : Type) : Type :=
| Ok (a : A)
| Err (e : exn).

Arguments Ok {A} a.
Arguments Err {A} e.

Definition bind {A B : Type} (m : result A) (k : A -> result B) : result B :=
  match m with
  | Ok a => k a
  | Err e => Err e
  end.

Notation "x <- m ;; k" := (bind m (fun x => k))
  (at level 61, m at next level, right associativity).

(** [[f(x) for x in l]] where [f] may raise: the first failure aborts. *)
Fixpoint mapM {A B : Type} (f : A -> result B) (l : list A) : result (list B) :=
  match l with
  | [] => Ok []
  | x :: rest =>
      y <- f x ;;
      ys <- mapM f rest ;;
      Ok (y :: ys)
  end.

(** ** Python values *)

(** A [float] is kept as its IEEE-754 binary64 bit pattern; the join never
    computes with floats, it only carries them. A [VDict] lists the items of
    a dict in insertion order (its keys are pairwise distinct). *)
Inductive value : Type :=
| VNone
| VBool (b : bool)
| VInt (z : Z)
| VFloat (bits : Z)
| VStr (s : string)
| VList (l : list value)
| VDict (d : list (value * value)).

(** [float("nan")] as pandas stores a missing cell. *)
Definition NaN : value := VFloat 0x7ff8000000000000%Z.

Definition key_is (k : string) (v : value) : bool :=
  match v with
  | VStr s => String.eqb s k
  | _ => false
  end.

(** [d.get(k)] for a string key [k] on the items of a dict. *)
Fixpoint items_get (k : string) (d : list (value * value)) : option value :=
  match d with
  | [] => None
  | (k', v) :: rest => if key_is k k' then Some v else items_get k rest
  end.

(** [v[k]] for a string key [k]: only a dict can be subscripted by a
    string; a missing key is a [KeyError], any other object a [TypeError]. *)
Definition py_getitem (v : value) (k : string) : result value :=
  match v with
  | VDict d =>
      match items_get k d with
      | Some x => Ok x
      | None => Err KeyError
      end
  | _ => Err TypeError
  end.

(** [len(v)]. *)
Definition py_len (v : value) : result nat :=
  match v with
  | VList l => Ok (List.length l)
  | VStr s => Ok (String.length s)
  | VDict d => Ok (List.length d)
  | _ => Err TypeError
  end.

(** The one-character strings of [s], as iterating a [str] yields them. *)
Fixpoint chars (s : string) : list value :=
  match s with
  | EmptyString => []
  | String c rest => VStr (String c EmptyString) :: chars rest
  end.

(** The elements [for x in v] runs over: the elements of a list, the
    characters of a string, the keys of a dict. *)
Definition py_iter (v : value) : result (list value) :=
  match v with
  | VList l => Ok l
  | VStr s => Ok (chars s)
  | VDict d => Ok (map fst d)
  | _ => Err TypeError
  end.

(** ** Strings *)

Definition slash : ascii := "/"%char.

(** [s.split(sep)] for a one-character separator. *)
Fixpoint split_on (sep : ascii) (s : string) : list string :=
  match s with
  | EmptyString => [EmptyString]
  | String c rest =>
      if Ascii.eqb c sep then EmptyString :: split_on sep rest
      else
        match split_on sep rest with
        | [] => [String c EmptyString]
        | w :: ws => String c w :: ws
        end
  end.

(** [s.count(c)]. *)
Fixpoint count_char (c : ascii) (s : string) : nat :=
  match s with
  | EmptyString => 0
  | String c' rest => (if Ascii.eqb c' c then 1 else 0) + count_char c rest
  end.

(** [re.sub(r"^audio/", "", s)]: the anchor only matches at the start of the
    string, so at most one occurrence is removed. *)
Definition strip_audio_prefix (s : string) : string :=
  if String.prefix "audio/" s then String.substring 6 (String.length s - 6) s
  else s.

(** ** [pathlib.PurePosixPath] *)

Inductive path_root : Type :=
| NoRoot
| Root1   (* "/" *)
| Root2.  (* "//", kept apart by POSIX *)

Record PurePath : Type := mkPath {
  root : path_root;
  parts : list string   (* the components after the root *)
}.

Definition root_str (r : path_root) : string :=
  match r with
  | NoRoot => ""
  | Root1 => "/"
  | Root2 => "//"
  end.

(** Number of leading separators. *)
Fixpoint leading_slashes (s : string) : nat :=
  match s with
  | String c rest => if Ascii.eqb c slash then S (leading_slashes rest) else 0
  | EmptyString => 0
  end.

(** [splitroot]: exactly two leading separators make the root "//", any
    other positive number the root "/". *)
Definition splitroot (s : string) : path_root :=
  match leading_slashes s with
  | 0 => NoRoot
  | 2 => Root2
  | _ => Root1
  end.

Definition is_component (x : string) : bool :=
  negb (String.eqb x "") && negb (String.eqb x ".").

(** [Path(s)]: empty components and "." are dropped. *)
Definition Path (s : string) : PurePath :=
  mkPath (splitroot s) (filter is_component (split_on slash s)).

(** [p.name]: the last component, or the empty string when there is none. *)
Definition name (p : PurePath) : string :=
  last (parts p) "".

(** [str(p)]. *)
Definition path_str (p : PurePath) : string :=
  match root p, parts p with
  | NoRoot, [] => "."
  | r, ps => root_str r ++ String.concat "/" ps
  end.

(** [p / s]: an absolute right operand replaces [p]. *)
Definition joinpath (p : PurePath) (s : string) : PurePath :=
  let q := Path s in
  match root q with
  | NoRoot => mkPath (root p) (parts p ++ parts q)
  | _ => q
  end.

(** ** The metadata table *)

(** A column of a [DataFrame] as [pd.read_csv] types it: text (dtype
    [object], a missing cell being NaN), [int64], [float64] (bit patterns)
    or [bool]. *)
Inductive Series : Type :=
| ObjectCol (l : list (option string))
| IntCol (l : list Z)
| FloatCol (l : list Z)
| BoolCol (l : list bool).

(** Columns in file order; [pd.read_csv] makes the labels distinct. *)
Definition DataFrame : Type := list (string * Series).

(** A row of the table as a Python dict from column label to cell. *)
Definition row_dict : Type := list (string * value).

(** [meta_lookup]: basename to row. A key is a string or NaN ([None]). *)
Definition lookup_table : Type := list (option string * row_dict).

Fixpoint assoc {A : Type} (k : string) (l : list (string * A)) : option A :=
  match l with
  | [] => None
  | (k', v) :: rest => if String.eqb k' k then Some v else assoc k rest
  end.

(** [df[col]]. *)
Definition df_getitem (df : DataFrame) (col : string) : result Series :=
  match assoc col df with
  | Some s => Ok s
  | None => Err KeyError
  end.

(** [series.str.replace(r"^audio/", "", regex=True)]: the [.str] accessor
    exists on text columns only; NaN cells stay NaN. *)
Definition str_replace_audio (s : Series) : result (list (option string)) :=
  match s with
  | ObjectCol l => Ok (map (option_map strip_audio_prefix) l)
  | _ => Err AttributeError
  end.

(** [df[col] = s]: an existing column is overwritten in place, a new one
    is added last. *)
Fixpoint df_setitem (df : DataFrame) (col : string) (s : Series) : DataFrame :=
  match df with
  | [] => [(col, s)]
  | (c, s') :: rest =>
      if String.eqb c col then (c, s) :: rest
      else (c, s') :: df_setitem rest col s
  end.

Fixpoint df_drop (df : DataFrame) (col : string) : DataFrame :=
  match df with
  | [] => []
  | (c, s) :: rest =>
      if String.eqb c col then rest else (c, s) :: df_drop rest col
  end.

(** The cell of a column at row [i], as a Python object. *)
Definition cell_at (s : Series) (i : nat) : value :=
  match s with
  | ObjectCol l =>
      match nth_error l i with
      | Some (Some x) => VStr x
      | _ => NaN
      end
  | IntCol l => match nth_error l i with Some z => VInt z | None => NaN end
  | FloatCol l => match nth_error l i with Some b => VFloat b | None => NaN end
  | BoolCol l => match nth_error l i with Some b => VBool b | None => NaN end
  end.

Definition row_at (df : DataFrame) (i : nat) : row_dict :=
  map (fun cs => (fst cs, cell_at (snd cs) i)) df.

Definition key_eqb (a b : option string) : bool :=
  match a, b with
  | Some x, Some y => String.eqb x y
  | None, None => true   (* pandas hashes all NaN to one key *)
  | _, _ => false
  end.

(** [index.is_unique]. *)
Fixpoint is_unique (keys : list (option string)) : bool :=
  match keys with
  | [] => true
  | k :: rest => negb (existsb (key_eqb k) rest) && is_unique rest
  end.

(** [df.set_index(col).to_dict(orient="index")] for a text column [col]:
    pandas refuses an index with repeated labels. *)
Definition to_dict_index (index : list (option string)) (df : DataFrame)
  : result lookup_table :=
  if is_unique index
  then Ok (map (fun ik => (snd ik, row_at df (fst ik)))
               (combine (seq 0 (List.length index)) index))
  else Err ValueError.

(** Lines 51-52 of the script. *)
Definition build_lookup (meta_df : DataFrame) : result lookup_table :=
  fn <- df_getitem meta_df "filename" ;;
  basename <- str_replace_audio fn ;;
  let meta_df := df_setitem meta_df "basename" (ObjectCol basename) in
  to_dict_index basename (df_drop meta_df "basename").

(** [meta_lookup.get(basename)] for a string [basename]. *)
Fixpoint lookup_get (t : lookup_table) (basename : string) : option row_dict :=
  match t with
  | [] => None
  | (k, r) :: rest =>
      if key_eqb k (Some basename) then Some r else lookup_get rest basename
  end.

(** [m.get(col)] on a row: [None] when the column does not exist. *)
Definition row_get (m : row_dict) (col : string) : value :=
  match assoc col m with
  | Some v => v
  | None => VNone
  end.

(** ** The join *)

(** One dict of [rows]. *)
Record Row : Type := mkRow {
  filename : string;
  scene : value;
  audio : string;
  captions : list value;
  tags : list value;
  annotators : list value;
  audio_identifier : value;
  audio_source_label : value
}.

(** [Path(v)] wants a string. *)
Definition as_str (v : value) : result string :=
  match v with
  | VStr s => Ok s
  | _ => Err TypeError
  end.

(** [[a[k] for a in annotations]]. *)
Definition comprehension (k : string) (annotations : value)
  : result (list value) :=
  l <- py_iter annotations ;;
  mapM (fun a => py_getitem a k) l.

(** The body of the loop, lines 63-84. *)
Definition process_item (audio_root : string) (meta_lookup : lookup_table)
    (item : value) : result Row :=
  fn <- py_getitem item "filename" ;;
  fn <- as_str fn ;;
  let basename := name (Path fn) in
  annotations <- py_getitem item "annotations" ;;
  sentences <- comprehension "sentence" annotations ;;
  tgs <- comprehension "tags" annotations ;;
  annotator <- comprehension "annotator_id" annotations ;;
  let m := match lookup_get meta_lookup basename with
           | Some r => r
           | None => []
           end in
  let scene_label := row_get m "scene_label" in
  let identifier := row_get m "identifier" in
  let source_label := row_get m "source_label" in
  Ok {| filename := basename;
        scene := scene_label;
        audio := path_str (joinpath (Path audio_root) basename);
        captions := sentences;
        tags := tgs;
        annotators := annotator;
        audio_identifier := identifier;
        audio_source_label := source_label |}.

(** [for item in yaml_items: ... rows.append(...)], with [rows] the list
    built so far. *)
Fixpoint join_loop (audio_root : string) (meta_lookup : lookup_table)
    (items : list value) (rows : list Row) : result (list Row) :=
  match items with
  | [] => Ok rows
  | item :: rest =>
      r <- process_item audio_root meta_lookup item ;;
      join_loop audio_root meta_lookup rest (rows ++ [r])
  end.

(** Lines 50-84 of [convert_macs_to_hf]. [meta_read] is the outcome of
    [smart_read_csv(meta_csv)] and [yaml_read] that of opening the
    annotation file and [yaml.safe_load]. The embedding ends where [rows]
    is complete and gives it back; building the dataset from [rows]
    (lines 86-132) is not part of it. *)
Definition convert_macs_to_hf (audio_root : string)
    (meta_read : result DataFrame) (yaml_read : result value)
  : result (list Row) :=
  meta_df <- meta_read ;;
  meta_lookup <- build_lookup meta_df ;;
  doc <- yaml_read ;;
  yaml_items <- py_getitem doc "files" ;;
  _ <- py_len yaml_items ;;
  items <- py_iter yaml_items ;;
  join_loop audio_root meta_lookup items [].

(** ** Reading the table: [smart_read_csv] *)

(** [csv.Sniffer] follows CPython's [Lib/csv.py], for the sample
    [smart_read_csv] hands it: one line, the candidates comma, tab and
    semicolon. Only the delimiter of the sniffed dialect is used. *)

Definition newline : ascii := ascii_of_nat 10.
Definition tab : ascii := ascii_of_nat 9.
Definition comma : ascii := ","%char.
Definition semicolon : ascii := ";"%char.
Definition space : ascii := " "%char.
Definition colon : ascii := ":"%char.
Definition dquote : ascii := ascii_of_nat 34.
Definition squote : ascii := "'"%char.

(** [f.readline()]: the text up to and including the first newline. *)
Fixpoint readline (content : string) : string :=
  match content with
  | EmptyString => EmptyString
  | String c rest =>
      if Ascii.eqb c newline then String c EmptyString
      else String c (readline rest)
  end.

Definition mem (c : ascii) (l : list ascii) : bool := existsb (Ascii.eqb c) l.

Definition has_quote (s : string) : bool :=
  ((0 <? count_char dquote s) || (0 <? count_char squote s))%nat.

Definition nonempty (s : string) : bool := negb (String.eqb s "").

(** [Sniffer.preferred]. *)
Definition preferred : list ascii := [comma; tab; semicolon; space; colon].

(** [[chr(c) for c in range(127)]]. *)
Definition ascii7 : list ascii := map ascii_of_nat (seq 0 127).

(** The dict [delims] that [_guess_delimiter] builds from a sample of one
    line: there every character that occurs has the mode [(count, 1)] and
    [total] is 1.0, so a character is kept when it occurs and is one of
    [delimiters]. Keys come in the order of [ascii7]; the value kept here is
    the count. *)
Definition line_delims (line : string) (delimiters : list ascii)
  : list (ascii * nat) :=
  filter (fun kv => (0 <? snd kv)%nat && mem (fst kv) delimiters)
         (map (fun c => (c, count_char c line)) ascii7).

(** [items.sort(); items[-1][1]] over [(v, k)]: the greatest count, and the
    greatest character among equal counts. *)
Definition dominates (a b : ascii * nat) : bool :=
  ((snd b <? snd a) ||
   ((snd b =? snd a) && (nat_of_ascii (fst b) <? nat_of_ascii (fst a))))%nat.

Definition dominant (delims : list (ascii * nat)) : option ascii :=
  match delims with
  | [] => None
  | kv :: rest =>
      Some (fst (fold_left (fun best kv' =>
                              if dominates kv' best then kv' else best)
                           rest kv))
  end.

Section Sniffer.

(** Two parts of [csv.Sniffer] are left as parameters: the regular
    expressions of [_guess_quote_and_delimiter], which can only match a
    sample that holds a quote character, and the chunked frequency
    analysis [_guess_delimiter] runs on a sample of several lines
    ([smart_read_csv] never passes it one). Each gives the delimiter it
    settles on, if any. *)
Variable quote_regexps : string -> list ascii -> option ascii.
Variable chunked_guess : list string -> list ascii -> option ascii.

(** [pd.read_csv(path, sep=d)] on the text of the file. *)
Variable read_csv : string -> ascii -> result DataFrame.

Definition guess_quote_and_delimiter (data : string)
    (delimiters : list ascii) : option ascii :=
  if has_quote data then quote_regexps data delimiters else None.

Definition guess_delimiter (data : string) (delimiters : list ascii)
  : option ascii :=
  match filter nonempty (split_on newline data) with
  | [] => None
  | [line] =>
      let delims := line_delims line delimiters in
      match delims with
      | [] => None
      | [(d, _)] => Some d
      | _ =>
          match find (fun d => mem d (map fst delims)) preferred with
          | Some d => Some d
          | None => dominant delims
          end
      end
  | lines => chunked_guess lines delimiters
  end.

(** [Sniffer().sniff(sample, delimiters).delimiter]. *)
Definition sniff (sample : string) (delimiters : list ascii) : result ascii :=
  match guess_quote_and_delimiter sample delimiters with
  | Some d => Ok d
  | None =>
      match guess_delimiter sample delimiters with
      | Some d => Ok d
      | None => Err CsvError
      end
  end.

(** [file] is the outcome of opening and reading [path]. *)
Definition smart_read_csv (file : result string) : result DataFrame :=
  content <- file ;;
  d <- sniff (readline content) [comma; tab; semicolon] ;;
  read_csv content d.

(** The Tabular Reader: lines 50-52 of [convert_macs_to_hf]. *)
Definition tabular_reader (file : result string) : result lookup_table :=
  meta_df <- smart_read_csv file ;;
  build_lookup meta_df.

End Sniffer.

(** ** A reference reader *)

(** A small reader of delimiter-separated text with text cells, used where
    a concrete reader is needed: lines are split at the separator outside
    double quotes, the first non-empty line is the header, and a short row
    is padded with NaN. *)
Fixpoint fields (sep : ascii) (quoted : bool) (s : string) : list string :=
  match s with
  | EmptyString => [EmptyString]
  | String c rest =>
      if Ascii.eqb c dquote then fields sep (negb quoted) rest
      else if negb quoted && Ascii.eqb c sep
      then EmptyString :: fields sep quoted rest
      else
        match fields sep quoted rest with
        | [] => [String c EmptyString]
        | w :: ws => String c w :: ws
        end
  end.

Definition simple_reader (content : string) (sep : ascii) : result DataFrame :=
  match filter nonempty (split_on newline content) with
  | [] => Err (Exn "EmptyDataError")
  | header :: lines =>
      let rows := map (fields sep false) lines in
      let labels := fields sep false header in
      Ok (map (fun jl => (snd jl, ObjectCol (map (fun r => nth_error r (fst jl)) rows)))
              (combine (seq 0 (List.length labels)) labels))
  end.

(** Plain rendering of a table: cells joined by [sep], one line per row. *)
Definition render (sep : ascii) (table : list (list string)) : string :=
  String.concat "" (map (fun r => String.concat (String sep "") r ++ String newline "") table).

(** ** Vocabulary of the properties *)

(** The [FormatError] of the specification's error taxonomy. The script
    defines no exception class and raises none of that name. *)
Definition FormatError : exn := Exn "FormatError".

(** The annotation groups a run iterates over: [yaml.safe_load(f)["files"]]. *)
Definition yaml_groups (yaml_read : result value) : result (list value) :=
  doc <- yaml_read ;;
  yaml_items <- py_getitem doc "files" ;;
  py_iter yaml_items.

(** [Path(item["filename"]).name]. *)
Definition group_basename (item : value) : result string :=
  fn <- py_getitem item "filename" ;;
  fn <- as_str fn ;;
  Ok (name (Path fn)).

(** The annotations of a group, as the comprehensions run over them. *)
Definition annotation_list (item : value) : result (list value) :=
  annotations <- py_getitem item "annotations" ;;
  py_iter annotations.

(** [vals] holds, position by position, the entry [k] of each annotation. *)
Definition drawn_from (k : string) (anns vals : list value) : Prop :=
  Forall2 (fun a v => py_getitem a k = Ok v) anns vals.

(** A record whose three annotation-derived fields are read, in order, off
    the annotations of [item]. *)
Definition aligned_with (item : value) (r : Row) : Prop :=
  exists anns,
    annotation_list item = Ok anns /\
    drawn_from "sentence" anns (captions r) /\
    drawn_from "tags" anns (tags r) /\
    drawn_from "annotator_id" anns (annotators r).

Definition is_some {A : Type} (o : option A) : bool :=
  match o with
  | Some _ => true
  | None => false
  end.

(** An annotation with its three entries. *)
Definition valid_annotation (a : value) : bool :=
  match a with
  | VDict d =>
      is_some (items_get "sentence" d) && is_some (items_get "tags" d) &&
      is_some (items_get "annotator_id" d)
  | _ => false
  end.

(** An annotation group as the annotation document lays it out: a mapping
    with a string [filename] and a list of annotations. *)
Definition valid_group (item : value) : bool :=
  match item with
  | VDict d =>
      match items_get "filename" d, items_get "annotations" d with
      | Some (VStr _), Some (VList anns) => forallb valid_annotation anns
      | _, _ => false
      end
  | _ => false
  end.

(** The entry [k] of an annotation ([None] when it has none). *)
Definition field (k : string) (a : value) : value :=
  match py_getitem a k with
  | Ok v => v
  | Err _ => VNone
  end.

(** The metadata row the join uses for [basename]: [meta_lookup.get(basename, {})]. *)
Definition metadata_for (meta_lookup : lookup_table) (basename : string)
  : row_dict :=
  match lookup_get meta_lookup basename with
  | Some r => r
  | None => []
  end.

(** The basenames of the groups of a document (of those that have one). *)
Definition group_names (yaml_read : result value) : list string :=
  match yaml_groups yaml_read with
  | Ok items =>
      flat_map (fun item => match group_basename item with
                            | Ok b => [b]
                            | Err _ => []
                            end) items
  | Err _ => []
  end.

Definition used_key (names : list string) (k : option string) : bool :=
  match k with
  | Some s => existsb (String.eqb s) names
  | None => false
  end.

(** The rows of a lookup whose basename is one of [names]. *)
Definition restrict (names : list string) (t : lookup_table) : lookup_table :=
  filter (fun kr => used_key names (fst kr)) t.

(** The basename column: [meta_df["filename"].str.replace(...)]. *)
Definition basenames_of (meta_df : DataFrame) : result (list (option string)) :=
  fn <- df_getitem meta_df "filename" ;;
  str_replace_audio fn.

(** The record of a group with filename [fn] and annotations [anns], each
    annotation having its three entries. *)
Definition record_of (audio_root : string) (meta_lookup : lookup_table)
    (fn : string) (anns : list value) : Row :=
  let basename := name (Path fn) in
  let m := metadata_for meta_lookup basename in
  {| filename := basename;
     scene := row_get m "scene_label";
     audio := path_str (joinpath (Path audio_root) basename);
     captions := map (field "sentence") anns;
     tags := map (field "tags") anns;
     annotators := map (field "annotator_id") anns;
     audio_identifier := row_get m "identifier";
     audio_source_label := row_get m "source_label" |}.

(** The Annotation Loader: lines 55-56, [yaml.safe_load(f)["files"]]. *)
Definition load_annotations (yaml_read : result value) : result value :=
  doc <- yaml_read ;;
  py_getitem doc "files".

(** What is wrong with an annotation document, if anything is: the parser
    raised [e], or the document is not a mapping, or it is a mapping with no
    key [files]. The exception is the one Python raises for it. *)
Definition document_defect (yaml_read : result value) : option exn :=
  match yaml_read with
  | Err e => Some e
  | Ok (VDict d) =>
      if is_some (items_get "files" d) then None else Some KeyError
  | Ok _ => Some TypeError
  end.

(** ** Sample inputs *)

Definition annotation (sentence : string) (tgs : list string) (annotator_id : Z)
  : value :=
  VDict [(VStr "sentence", VStr sentence);
         (VStr "tags", VList (map VStr tgs));
         (VStr "annotator_id", VInt annotator_id)].

Definition group (fn : string) (anns : list value) : value :=
  VDict [(VStr "filename", VStr fn); (VStr "annotations", VList anns)].

Definition document (groups : list value) : value :=
  VDict [(VStr "files", VList groups)].

Definition meta_table (rows : list (string * string * string * string))
  : DataFrame :=
  [("filename", ObjectCol (map (fun r => Some (fst (fst (fst r)))) rows));
   ("scene_label", ObjectCol (map (fun r => Some (snd (fst (fst r)))) rows));
   ("identifier", ObjectCol (map (fun r => Some (snd (fst r))) rows));
   ("source_label", ObjectCol (map (fun r => Some (snd r)) rows))].

(** The scenario of the specification. *)
Definition scenario_meta : DataFrame :=
  meta_table [("audio/a1.wav", "park", "id1", "src1")].

Definition scenario_doc : value :=
  document [group "somepath/a1.wav" [annotation "birds chirping" ["nature"] 3]].

(** Two groups whose filenames end in the same component. *)
Definition twin_doc : value :=
  document [group "left/x.wav" [annotation "rain" ["weather"] 1];
            group "right/x.wav" [annotation "wind" ["weather"] 2]].

(** A table with the basename [a1.wav] twice. *)
Definition twice_meta : DataFrame :=
  meta_table [("audio/a1.wav", "park", "id1", "src1");
              ("a1.wav", "street", "id2", "src2")].

(** A table with one more row, which no group of [scenario_doc] names. *)
Definition wider_meta : DataFrame :=
  meta_table [("audio/z9.wav", "mall", "id9", "src9");
              ("audio/a1.wav", "park", "id1", "src1")].

(** A tab-separated file whose second column label holds a comma, and the
    same table comma-separated (the label is then quoted). *)
Definition comma_label_table : DataFrame :=
  [("filename", ObjectCol [Some "audio/a1.wav"]);
   ("scene,label", ObjectCol [Some "park"])].

Definition comma_label_tsv : string :=
  render tab [["filename"; "scene,label"]; ["audio/a1.wav"; "park"]].

Definition comma_label_csv : string :=
  "filename," ++ String dquote ("scene,label" ++ String dquote "")
  ++ String newline ("audio/a1.wav,park" ++ String newline "").

Definition plain_table : list (list string) :=
  [["filename"; "scene_label"; "identifier"; "source_label"];
   ["audio/a1.wav"; "park"; "id1"; "src1"]].

(** ** Vocabulary of further properties *)

(** The cell of column [col] at row [i] of a table, [None] when the table
    has no such column: what [m.get(col)] gives on the row's dict. *)
Definition column_cell (meta_df : DataFrame) (col : string) (i : nat) : value :=
  match assoc col meta_df with
  | Some s => cell_at s i
  | None => VNone
  end.

(** A lookup key that a basename can equal: a string without separator. *)
Definition joinable (k : option string) : bool :=
  match k with
  | Some s => (count_char slash s =? 0)%nat
  | None => false
  end.

(** The first of comma, tab and semicolon that occurs in a line. *)
Definition first_candidate (line : string) : option ascii :=
  find (fun c => (0 <? count_char c line)%nat) [comma; tab; semicolon].

(** ** Building, saving and publishing the dataset *)

(** Truth value of an argument that is [None] or a string. *)
Definition truthy (o : option string) : bool :=
  match o with
  | Some s => nonempty s
  | None => false
  end.

(** The calls of [convert_macs_to_hf] that act on the outside world. *)
Inductive action : Type :=
| Mkdir (p : PurePath)                        (* out_dir.mkdir(parents=True, exist_ok=True) *)
| SaveToDisk (p : PurePath)                   (* ds_all.save_to_disk(out_dir) *)
| Login (token : string)                      (* login(token=hf_token) *)
| PushToHub (repo : string) (private : bool). (* ds_all.push_to_hub(push_to_hub, private=private) *)

(** What the script finds on disk: the outcome of [Path.exists()] (which
    raises [OSError] for errors other than a missing path, such as a name
    that is too long), the outcome of [smart_read_csv] on a path and that
    of opening a path and [yaml.safe_load]. *)
Record World : Type := mkWorld {
  path_exists : PurePath -> result bool;
  read_meta : PurePath -> result DataFrame;
  load_yaml : PurePath -> result value
}.

(** The parsed command line ([argparse.Namespace]); [--out-dir] has the
    default [macs_hf], so it is always a string. *)
Record Namespace : Type := mkNamespace {
  arg_audio_root : string;
  arg_meta_csv : string;
  arg_yaml_file : string;
  arg_out_dir : string;
  arg_push_to_hub : option string;
  arg_private : bool;
  arg_hf_token : option string
}.

(** What [parser.parse_args()] does with the command line: it calls
    [parser.error(msg)] itself (a missing or unknown argument), prints the
    help and exits, or gives the namespace. *)
Inductive parsed : Type :=
| Refused (msg : string)
| HelpShown
| Parsed (args : Namespace).

(** How [main] ends: [parser.error(msg)] (usage message, exit status 2),
    the exit after the help text, an exception, or the closing message. *)
Inductive outcome : Type :=
| ParserError (msg : string)
| HelpExit
| Raised (e : exn)
| Completed.

(** The actions of steps 5 and 6 for given arguments, in order. *)
Definition save_plan (out_dir : option string) : list action :=
  match out_dir with
  | Some s => if nonempty s then [Mkdir (Path s); SaveToDisk (Path s)] else []
  | None => []
  end.

Definition login_plan (hf_token : option string) : list action :=
  match hf_token with
  | Some t => if nonempty t then [Login t] else []
  | None => []
  end.

Definition push_plan (push_to_hub : option string) (private : bool)
    (hf_token : option string) : list action :=
  match push_to_hub with
  | Some repo =>
      if nonempty repo then (login_plan hf_token ++ [PushToHub repo private])%list
      else []
  | None => []
  end.

Definition plan (out_dir push_to_hub : option string) (private : bool)
    (hf_token : option string) : list action :=
  (save_plan out_dir ++ push_plan push_to_hub private hf_token)%list.

Section Sinks.

(** The dataset object is opaque: [from_pandas] is
    [datasets.Dataset.from_pandas(pd.DataFrame(rows), features=features,
    preserve_index=False)], [sample] is the [ds_all[0]] of line 108, and
    [perform] tells whether an action on the outside world raises. *)
Variable Dataset : Type.
Variable from_pandas : list Row -> result Dataset.
Variable sample : Dataset -> result unit.
Variable perform : action -> result unit.

(** A computation that may raise and that logs the actions it attempts. *)
Definition io (A : Type) : Type := list action -> list action * result A.

Definition io_ret {A : Type} (a : A) : io A := fun log => (log, Ok a).

Definition io_bind {A B : Type} (m : io A) (k : A -> io B) : io B :=
  fun log =>
    match m log with
    | (log', Ok a) => k a log'
    | (log', Err e) => (log', Err e)
    end.

Definition lift {A : Type} (r : result A) : io A := fun log => (log, r).

Definition call (a : action) : io unit :=
  fun log => ((log ++ [a])%list, perform a).

Notation "x <~ m ;; k" := (io_bind m (fun x => k))
  (at level 61, m at next level, right associativity).

(** Lines 110-130: save when [out_dir] is given, push when [push_to_hub]
    is, logging in first when there is a token. *)
Definition publish (ds_all : Dataset) (out_dir push_to_hub : option string)
    (private : bool) (hf_token : option string) : io Dataset :=
  _ <~ match out_dir with
       | Some s =>
           if nonempty s
           then _ <~ call (Mkdir (Path s)) ;; call (SaveToDisk (Path s))
           else io_ret tt
       | None => io_ret tt
       end ;;
  _ <~ match push_to_hub with
       | Some repo =>
           if nonempty repo
           then
             _ <~ match hf_token with
                  | Some t => if nonempty t then call (Login t) else io_ret tt
                  | None => io_ret tt
                  end ;;
             call (PushToHub repo private)
           else io_ret tt
       | None => io_ret tt
       end ;;
  io_ret ds_all.

(** The whole of [convert_macs_to_hf], lines 41-132. *)
Definition convert_and_publish (w : World)
    (audio_root meta_csv yaml_file : string)
    (out_dir push_to_hub : option string) (private : bool)
    (hf_token : option string) : io Dataset :=
  rows <~ lift (convert_macs_to_hf audio_root
                  (read_meta w (Path meta_csv))
                  (load_yaml w (Path yaml_file))) ;;
  ds_all <~ lift (from_pandas rows) ;;
  _ <~ lift (sample ds_all) ;;
  publish ds_all out_dir push_to_hub private hf_token.

(** [main]. [parse] is the outcome of [parser.parse_args()] on the command
    line. *)
Definition main (w : World) (parse : parsed) : list action * outcome :=
  match parse with
  | Refused msg => ([], ParserError msg)
  | HelpShown => ([], HelpExit)
  | Parsed args =>
      if arg_private args && negb (truthy (arg_push_to_hub args))
      then ([], ParserError "--private can only be used with --push-to-hub")
      else
        match path_exists w (Path (arg_audio_root args)) with
        | Err e => ([], Raised e)
        | Ok false =>
            ([], ParserError ("Audio root directory does not exist: "
                              ++ arg_audio_root args))
        | Ok true =>
            match path_exists w (Path (arg_meta_csv args)) with
            | Err e => ([], Raised e)
            | Ok false =>
                ([], ParserError ("Meta CSV file does not exist: "
                                  ++ arg_meta_csv args))
            | Ok true =>
                match path_exists w (Path (arg_yaml_file args)) with
                | Err e => ([], Raised e)
                | Ok false =>
                    ([], ParserError ("YAML file does not exist: "
                                      ++ arg_yaml_file args))
                | Ok true =>
                    match convert_and_publish w (arg_audio_root args)
                            (arg_meta_csv args) (arg_yaml_file args)
                            (Some (arg_out_dir args)) (arg_push_to_hub args)
                            (arg_private args) (arg_hf_token args) []
                    with
                    | (log, Ok _) => (log, Completed)
                    | (log, Err e) => (log, Raised e)
                    end
                end
            end
        end
  end.

(** Attempting a list of actions in order, up to the first that raises. *)
Fixpoint attempt (acts : list action) : io unit :=
  match acts with
  | [] => io_ret tt
  | a :: rest => _ <~ call a ;; attempt rest
  end.

End Sinks.

(** A world for the sample inputs: every path exists. *)
Definition sample_world : World :=
  mkWorld (fun _ => Ok true) (fun _ => Ok scenario_meta)
          (fun _ => Ok scenario_doc).

Definition sample_args : Namespace :=
  mkNamespace "MACS_raw/audio" "MACS_raw/tau_meta/meta.csv" "MACS_raw/MACS.yaml"
              "macs_hf" (Some "username/MACS_captions") true None.

(** [p.exists()] returned [True]. *)
Definition found (r : result bool) : bool :=
  match r with
  | Ok b => b
  | Err _ => false
  end.

(** The four checks of [main] all pass. *)
Definition valid_arguments (w : World) (args : Namespace) : bool :=
  negb (arg_private args && negb (truthy (arg_push_to_hub args))) &&
  found (path_exists w (Path (arg_audio_root args))) &&
  found (path_exists w (Path (arg_meta_csv args))) &&
  found (path_exists w (Path (arg_yaml_file args))).

(** Sample surroundings: a dataset that is its list of rows and has a
    first sample when it is not empty, sinks that never raise, and sinks
    of which saving raises. *)
Definition rows_dataset (rows : list Row) : result (list Row) := Ok rows.

Definition first_row (ds : list Row) : result unit :=
  match ds with
  | [] => Err (Exn "IndexError")
  | _ :: _ => Ok tt
  end.

Definition sinks_succeed (a : action) : result unit := Ok tt.

Definition saving_raises (a : action) : result unit :=
  match a with
  | SaveToDisk _ => Err (Exn "OSError")
  | _ => Ok tt
  end.

(** ** Rows of a table *)

(** [l[mask]]: the entries of [l] at the positions where [mask] is true. *)
Fixpoint keep {A : Type} (mask : list bool) (l : list A) : list A :=
  match mask, l with
  | m :: ms, x :: xs => if m then x :: keep ms xs else keep ms xs
  | _, _ => []
  end.

Definition keep_rows (mask : list bool) (s : Series) : Series :=
  match s with
  | ObjectCol l => ObjectCol (keep mask l)
  | IntCol l => IntCol (keep mask l)
  | FloatCol l => FloatCol (keep mask l)
  | BoolCol l => BoolCol (keep mask l)
  end.

(** [df[mask]]: the rows of a table selected by a boolean mask; the
    columns keep their types. *)
Definition select_rows (mask : list bool) (df : DataFrame) : DataFrame :=
  map (fun cs => (fst cs, keep_rows mask (snd cs))) df.

(** The table without its orphan rows: the rows whose basename is one of
    [names], in table order. *)
Definition named_rows (names : list string) (meta_df : DataFrame) : DataFrame :=
  match basenames_of meta_df with
  | Ok keys => select_rows (map (used_key names) keys) meta_df
  | Err _ => meta_df
  end.

Definition series_tail (s : Series) : Series :=
  match s with
  | ObjectCol l => ObjectCol (tl l)
  | IntCol l => IntCol (tl l)
  | FloatCol l => FloatCol (tl l)
  | BoolCol l => BoolCol (tl l)
  end.

(** The table without its first row. *)
Definition df_tail (df : DataFrame) : DataFrame :=
  map (fun cs => (fst cs, series_tail (snd cs))) df.

(** The first [n] rows of a table, as dicts. *)
Definition table_rows (df : DataFrame) (n : nat) : list row_dict :=
  map (row_at df) (seq 0 n).

(** ** A reference reader that types its columns *)

Definition is_digit (c : ascii) : bool :=
  ((48 <=? nat_of_ascii c) && (nat_of_ascii c <=? 57))%nat.

Fixpoint digits_value (acc : Z) (s : string) : option Z :=
  match s with
  | EmptyString => Some acc
  | String c rest =>
      if is_digit c
      then digits_value (10 * acc + Z.of_nat (nat_of_ascii c - 48)) rest
      else None
  end.

(** The integer written by a non-empty string of decimal digits. *)
Definition parse_int (s : string) : option Z :=
  match s with
  | EmptyString => None
  | _ => digits_value 0 s
  end.

Fixpoint all_ints (l : list (option string)) : option (list Z) :=
  match l with
  | [] => Some []
  | Some x :: rest =>
      match parse_int x, all_ints rest with
      | Some z, Some zs => Some (z :: zs)
      | _, _ => None
      end
  | None :: _ => None
  end.

(** The type [pd.read_csv] gives a column: [int64] when every cell is an
    integer numeral, text otherwise. *)
Definition infer_column (s : Series) : Series :=
  match s with
  | ObjectCol (x :: l) =>
      match all_ints (x :: l) with
      | Some zs => IntCol zs
      | None => s
      end
  | _ => s
  end.

(** [simple_reader] followed by the typing of the columns. *)
Definition typed_reader (content : string) (sep : ascii) : result DataFrame :=
  df <- simple_reader content sep ;;
  Ok (map (fun cs => (fst cs, infer_column (snd cs))) df).

(** A metadata file whose [identifier] cell is a numeral, and the same
    file with one more row, which no group of [scenario_doc] names and
    whose [identifier] is not a numeral. *)
Definition numbered_table : list (list string) :=
  [["filename"; "scene_label"; "identifier"; "source_label"];
   ["audio/a1.wav"; "park"; "123"; "src1"]].

Definition numbered_csv : string := render comma numbered_table.

Definition numbered_csv_with_orphan : string :=
  render comma (numbered_table ++ [["audio/z9.wav"; "mall"; "abc"; "src9"]]).

(** * Properties *)

(** ** The error monad *)

Lemma bind_ok {A B : Type} (m : result A) (k : A -> result B) (b : B) :
  bind m k = Ok b -> exists a, m = Ok a /\ k a = Ok b.
Proof.
  destruct m as [a|e]; simpl; intros H.
  - exists a. split; [reflexivity | exact H].
  - discriminate H.
Qed.

Ltac invert_bind H :=
  let x := fresh "x" in
  let Hx := fresh "Hx" in
  apply bind_ok in H; destruct H as [x [Hx H]].

Lemma mapM_Forall2 {A B : Type} (f : A -> result B) (l : list A) (l' : list B) :
  mapM f l = Ok l' <-> Forall2 (fun x y => f x = Ok y) l l'.
Proof.
  revert l'. induction l as [|x rest IH]; intros l'; simpl.
  - split; intros H.
    + injection H as <-. constructor.
    + inversion H. reflexivity.
  - split; intros H.
    + invert_bind H. invert_bind H. injection H as <-.
      constructor; [assumption | apply IH; assumption].
    + inversion H as [|? y ? ys Hy Hys]; subst.
      rewrite Hy. simpl. apply IH in Hys. rewrite Hys. reflexivity.
Qed.

Lemma mapM_length {A B : Type} (f : A -> result B) (l : list A) (l' : list B) :
  mapM f l = Ok l' -> List.length l' = List.length l.
Proof.
  intros H. apply mapM_Forall2 in H. symmetry. eapply Forall2_length; eassumption.
Qed.

Lemma mapM_ext_in {A B : Type} (f g : A -> result B) (l : list A) :
  (forall x, In x l -> f x = g x) -> mapM f l = mapM g l.
Proof.
  induction l as [|x rest IH]; intros H; simpl.
  - reflexivity.
  - rewrite (H x (or_introl eq_refl)), IH; [reflexivity|].
    intros y Hy. apply H. right. exact Hy.
Qed.

Lemma mapM_map {A B : Type} (f : A -> result B) (g : A -> B) (l : list A) :
  (forall x, In x l -> f x = Ok (g x)) -> mapM f l = Ok (map g l).
Proof.
  induction l as [|x rest IH]; intros H; simpl.
  - reflexivity.
  - rewrite (H x (or_introl eq_refl)). simpl. rewrite IH; [reflexivity|].
    intros y Hy. apply H. right. exact Hy.
Qed.

(** ** The loop *)

(** The loop appends to [rows] the records of the groups, in order, or
    raises what the first failing group raises. *)
Lemma join_loop_mapM (audio_root : string) (meta_lookup : lookup_table)
    (items : list value) (rows : list Row) :
  join_loop audio_root meta_lookup items rows =
  (rs <- mapM (process_item audio_root meta_lookup) items ;; Ok (rows ++ rs)%list).
Proof.
  revert rows. induction items as [|item rest IH]; intros rows; simpl.
  - rewrite app_nil_r. reflexivity.
  - destruct (process_item audio_root meta_lookup item) as [r|e]; simpl.
    + rewrite IH.
      destruct (mapM (process_item audio_root meta_lookup) rest) as [rs|e];
        simpl; [rewrite <- app_assoc|]; reflexivity.
    + reflexivity.
Qed.

(** What a successful run went through. *)
Lemma convert_ok_inv (audio_root : string) (meta_read : result DataFrame)
    (yaml_read : result value) (rows : list Row) :
  convert_macs_to_hf audio_root meta_read yaml_read = Ok rows ->
  exists meta_df meta_lookup items,
    meta_read = Ok meta_df /\
    build_lookup meta_df = Ok meta_lookup /\
    yaml_groups yaml_read = Ok items /\
    Forall2 (fun item r => process_item audio_root meta_lookup item = Ok r)
            items rows.
Proof.
  unfold convert_macs_to_hf, yaml_groups. intros H.
  apply bind_ok in H. destruct H as [meta_df [Hmeta H]].
  apply bind_ok in H. destruct H as [meta_lookup [Hlookup H]].
  apply bind_ok in H. destruct H as [doc [Hdoc H]].
  apply bind_ok in H. destruct H as [yaml_items [Hfiles H]].
  apply bind_ok in H. destruct H as [n [_ H]].
  apply bind_ok in H. destruct H as [items [Hiter H]].
  rewrite join_loop_mapM in H.
  apply bind_ok in H. destruct H as [rs [Hrs H]].
  injection H as <-.
  exists meta_df, meta_lookup, items.
  rewrite Hdoc. simpl. rewrite Hfiles. simpl.
  repeat split; try assumption.
  apply mapM_Forall2. exact Hrs.
Qed.

(** What a group that yields a record went through. *)
Lemma process_item_ok_inv (audio_root : string) (meta_lookup : lookup_table)
    (item : value) (r : Row) :
  process_item audio_root meta_lookup item = Ok r ->
  exists b,
    group_basename item = Ok b /\
    aligned_with item r /\
    filename r = b /\
    audio r = path_str (joinpath (Path audio_root) b) /\
    scene r = row_get (metadata_for meta_lookup b) "scene_label" /\
    audio_identifier r = row_get (metadata_for meta_lookup b) "identifier" /\
    audio_source_label r = row_get (metadata_for meta_lookup b) "source_label".
Proof.
  unfold process_item, group_basename, aligned_with, annotation_list,
    comprehension, drawn_from, metadata_for.
  intros H.
  apply bind_ok in H. destruct H as [fnv [Hfn H]].
  apply bind_ok in H. destruct H as [fn [Hstr H]].
  apply bind_ok in H. destruct H as [annotations [Hann H]].
  apply bind_ok in H. destruct H as [sentences [Hs H]].
  apply bind_ok in H. destruct H as [tgs [Ht H]].
  apply bind_ok in H. destruct H as [annotator [Ha H]].
  injection H as <-. simpl.
  apply bind_ok in Hs. destruct Hs as [l [Hl Hs]].
  rewrite Hl in Ht, Ha. simpl in Ht, Ha.
  exists (name (Path fn)).
  rewrite Hfn. simpl. rewrite Hstr. simpl. rewrite Hann. simpl.
  repeat split; try reflexivity.
  exists l. repeat split; try assumption; apply mapM_Forall2; assumption.
Qed.

Lemma drawn_from_length (k : string) (anns vals : list value) :
  drawn_from k anns vals -> List.length vals = List.length anns.
Proof.
  intros H. symmetry. eapply Forall2_length. exact H.
Qed.

(** C1. Every record a run returns has captions, tags and annotators of one
    length, and the entry at each position of the three is read off the
    annotation at that position of the record's group: the records are
    matched, in order, with the groups of the annotation document. *)
Theorem captions_tags_annotators_aligned (audio_root : string)
    (meta_read : result DataFrame) (yaml_read : result value)
    (rows : list Row) :
  convert_macs_to_hf audio_root meta_read yaml_read = Ok rows ->
  Forall (fun r => List.length (captions r) = List.length (tags r) /\
                   List.length (tags r) = List.length (annotators r)) rows /\
  exists items,
    yaml_groups yaml_read = Ok items /\
    Forall2 aligned_with items rows.
Proof.
  intros H. apply convert_ok_inv in H.
  destruct H as [meta_df [meta_lookup [items [_ [_ [Hitems Hrows]]]]]].
  assert (Hal : Forall2 aligned_with items rows).
  { eapply Forall2_impl; [|exact Hrows].
    intros item r Hr. apply process_item_ok_inv in Hr.
    destruct Hr as [b [_ [Hr _]]]. exact Hr. }
  split.
  - clear Hitems Hrows. induction Hal as [|item r items' rows' Hr _ IH].
    + constructor.
    + constructor; [|exact IH].
      destruct Hr as [anns [_ [Hs [Ht Ha]]]].
      apply drawn_from_length in Hs, Ht, Ha. split; congruence.
  - exists items. split; assumption.
Qed.

Lemma captions_tags_annotators_aligned_witness :
  Forall (fun r => List.length (captions r) = List.length (tags r) /\
                   List.length (tags r) = List.length (annotators r))
    [{| filename := "a1.wav"; scene := VStr "park"; audio := "root/a1.wav";
        captions := [VStr "birds chirping"]; tags := [VList [VStr "nature"]];
        annotators := [VInt 3]; audio_identifier := VStr "id1";
        audio_source_label := VStr "src1" |}] /\
  exists items,
    yaml_groups (Ok scenario_doc) = Ok items /\
    Forall2 aligned_with items
      [{| filename := "a1.wav"; scene := VStr "park"; audio := "root/a1.wav";
          captions := [VStr "birds chirping"]; tags := [VList [VStr "nature"]];
          annotators := [VInt 3]; audio_identifier := VStr "id1";
          audio_source_label := VStr "src1" |}].
Proof.
  apply (@captions_tags_annotators_aligned "root" (Ok scenario_meta)
           (Ok scenario_doc)).
  reflexivity.
Defined.

(** ** Well-formed groups *)

Lemma mapM_total {A B : Type} (f : A -> result B) (l : list A) :
  (forall x, In x l -> exists y, f x = Ok y) -> exists l', mapM f l = Ok l'.
Proof.
  induction l as [|x rest IH]; intros H; simpl.
  - exists []. reflexivity.
  - destruct (H x (or_introl eq_refl)) as [y Hy].
    destruct IH as [ys Hys]; [intros z Hz; apply H; right; exact Hz|].
    exists (y :: ys). rewrite Hy. simpl. rewrite Hys. reflexivity.
Qed.

Lemma Forall2_nth_error {A B : Type} (R : A -> B -> Prop) (l : list A)
    (l' : list B) (i : nat) (x : A) :
  Forall2 R l l' -> nth_error l i = Some x ->
  exists y, nth_error l' i = Some y /\ R x y.
Proof.
  intros H. revert i. induction H as [|a b l l' Hab _ IH]; intros i Hi.
  - destruct i; discriminate Hi.
  - destruct i as [|i]; simpl in *.
    + injection Hi as <-. exists b. split; [reflexivity | exact Hab].
    + apply IH. exact Hi.
Qed.

Lemma valid_annotation_getitem (k : string) (a : value) :
  valid_annotation a = true ->
  k = "sentence" \/ k = "tags" \/ k = "annotator_id" ->
  py_getitem a k = Ok (field k a).
Proof.
  intros Hv Hk. destruct a; try discriminate Hv. simpl in Hv.
  apply andb_prop in Hv. destruct Hv as [Hv H3].
  apply andb_prop in Hv. destruct Hv as [H1 H2].
  unfold field, py_getitem.
  destruct Hk as [-> | [-> | ->]];
    match goal with
    | |- context [items_get ?k d] => destruct (items_get k d)
    end; try reflexivity; discriminate.
Qed.

Lemma valid_group_inv (item : value) :
  valid_group item = true ->
  exists fn anns,
    py_getitem item "filename" = Ok (VStr fn) /\
    py_getitem item "annotations" = Ok (VList anns) /\
    forallb valid_annotation anns = true.
Proof.
  intros Hv. destruct item; try discriminate Hv. simpl in Hv. simpl.
  destruct (items_get "filename" d) as [[| | | |fn| |]|]; try discriminate Hv.
  destruct (items_get "annotations" d) as [[| | | | |anns|]|]; try discriminate Hv.
  exists fn, anns. repeat split. exact Hv.
Qed.

(** A group with a string filename and a list of complete annotations
    yields its record. *)
Lemma process_item_valid (audio_root : string) (meta_lookup : lookup_table)
    (item : value) (fn : string) (anns : list value) :
  py_getitem item "filename" = Ok (VStr fn) ->
  py_getitem item "annotations" = Ok (VList anns) ->
  forallb valid_annotation anns = true ->
  process_item audio_root meta_lookup item =
  Ok (record_of audio_root meta_lookup fn anns).
Proof.
  intros Hfn Hann Hall. unfold process_item, comprehension.
  rewrite Hfn. simpl. rewrite Hann. simpl.
  rewrite forallb_forall in Hall.
  rewrite (@mapM_map _ _ _ (field "sentence") anns),
          (@mapM_map _ _ _ (field "tags") anns),
          (@mapM_map _ _ _ (field "annotator_id") anns);
    [reflexivity| | |];
    intros a Ha; apply valid_annotation_getitem; auto.
Qed.

Lemma convert_valid (audio_root : string) (meta_df : DataFrame)
    (meta_lookup : lookup_table) (doc : value) (items : list value) :
  build_lookup meta_df = Ok meta_lookup ->
  py_getitem doc "files" = Ok (VList items) ->
  forallb valid_group items = true ->
  exists rows,
    convert_macs_to_hf audio_root (Ok meta_df) (Ok doc) = Ok rows /\
    Forall2 (fun item r => process_item audio_root meta_lookup item = Ok r)
            items rows.
Proof.
  intros Hlookup Hfiles Hall.
  destruct (@mapM_total _ _ (process_item audio_root meta_lookup) items)
    as [rows Hrows].
  { intros item Hin. rewrite forallb_forall in Hall.
    destruct (@valid_group_inv item (Hall item Hin)) as [fn [anns [H1 [H2 H3]]]].
    eexists. apply process_item_valid; eassumption. }
  exists rows. split.
  - unfold convert_macs_to_hf. simpl. rewrite Hlookup. simpl.
    rewrite Hfiles. simpl. rewrite join_loop_mapM, Hrows. reflexivity.
  - apply mapM_Forall2. exact Hrows.
Qed.

(** C2. With a metadata table whose lookup builds and an annotation
    document whose groups are well formed, the run returns one record per
    group: as many records as groups, the record at each position being
    the one built from the group at that position. *)
Theorem one_record_per_group_in_order (audio_root : string)
    (meta_df : DataFrame) (meta_lookup : lookup_table) (doc : value)
    (items : list value) :
  build_lookup meta_df = Ok meta_lookup ->
  py_getitem doc "files" = Ok (VList items) ->
  forallb valid_group items = true ->
  exists rows,
    convert_macs_to_hf audio_root (Ok meta_df) (Ok doc) = Ok rows /\
    List.length rows = List.length items /\
    Forall2 (fun item r => process_item audio_root meta_lookup item = Ok r)
            items rows /\
    Forall2 (fun item r => group_basename item = Ok (filename r)) items rows.
Proof.
  intros Hlookup Hfiles Hall.
  destruct (@convert_valid audio_root _ _ _ _ Hlookup Hfiles Hall) as [rows [Hrun Hrows]].
  exists rows. repeat split.
  - exact Hrun.
  - symmetry. eapply Forall2_length. exact Hrows.
  - exact Hrows.
  - eapply Forall2_impl; [|exact Hrows].
    intros item r Hr. apply process_item_ok_inv in Hr.
    destruct Hr as [b [Hb [_ [Hf _]]]]. rewrite Hf. exact Hb.
Qed.

Lemma one_record_per_group_in_order_witness :
  exists rows,
    convert_macs_to_hf "root" (Ok scenario_meta) (Ok twin_doc) = Ok rows /\
    List.length rows = 2 /\
    Forall2 (fun item r =>
               process_item "root"
                 [(Some "a1.wav", row_at scenario_meta 0)] item = Ok r)
            [group "left/x.wav" [annotation "rain" ["weather"] 1];
             group "right/x.wav" [annotation "wind" ["weather"] 2]] rows /\
    Forall2 (fun item r => group_basename item = Ok (filename r))
            [group "left/x.wav" [annotation "rain" ["weather"] 1];
             group "right/x.wav" [annotation "wind" ["weather"] 2]] rows.
Proof.
  apply (@one_record_per_group_in_order "root" scenario_meta
           [(Some "a1.wav", row_at scenario_meta 0)] twin_doc
           [group "left/x.wav" [annotation "rain" ["weather"] 1];
            group "right/x.wav" [annotation "wind" ["weather"] 2]]);
    reflexivity.
Defined.

(** C3. In a run over well-formed groups, a group whose basename is not a
    key of the metadata lookup still yields its record, at the position of
    the group: scene, audio_identifier and audio_source_label are [None],
    and filename, audio and the three annotation-derived fields are filled
    as for any other group. *)
Theorem missing_metadata_gives_nulls (audio_root : string)
    (meta_df : DataFrame) (meta_lookup : lookup_table) (doc : value)
    (items : list value) (i : nat) (item : value) (fn : string) :
  build_lookup meta_df = Ok meta_lookup ->
  py_getitem doc "files" = Ok (VList items) ->
  forallb valid_group items = true ->
  nth_error items i = Some item ->
  py_getitem item "filename" = Ok (VStr fn) ->
  lookup_get meta_lookup (name (Path fn)) = None ->
  exists rows r,
    convert_macs_to_hf audio_root (Ok meta_df) (Ok doc) = Ok rows /\
    nth_error rows i = Some r /\
    process_item audio_root meta_lookup item = Ok r /\
    scene r = VNone /\
    audio_identifier r = VNone /\
    audio_source_label r = VNone /\
    filename r = name (Path fn) /\
    audio r = path_str (joinpath (Path audio_root) (name (Path fn))) /\
    aligned_with item r.
Proof.
  intros Hlookup Hfiles Hall Hi Hfn Hnone.
  destruct (@convert_valid audio_root _ _ _ _ Hlookup Hfiles Hall)
    as [rows [Hrun Hrows]].
  destruct (@Forall2_nth_error _ _ _ _ _ i item Hrows Hi) as [r [Hr Hitem]].
  exists rows, r.
  destruct (@process_item_ok_inv _ _ _ _ Hitem)
    as [b [Hb [Hal [Hf [Ha [Hs [Hid Hsrc]]]]]]].
  unfold group_basename in Hb. rewrite Hfn in Hb. simpl in Hb.
  injection Hb as <-.
  unfold metadata_for in Hs, Hid, Hsrc. rewrite Hnone in Hs, Hid, Hsrc.
  repeat split; assumption.
Qed.

Lemma missing_metadata_gives_nulls_witness :
  exists rows r,
    convert_macs_to_hf "root" (Ok scenario_meta) (Ok twin_doc) = Ok rows /\
    nth_error rows 1 = Some r /\
    process_item "root" [(Some "a1.wav", row_at scenario_meta 0)]
      (group "right/x.wav" [annotation "wind" ["weather"] 2]) = Ok r /\
    scene r = VNone /\
    audio_identifier r = VNone /\
    audio_source_label r = VNone /\
    filename r = name (Path "right/x.wav") /\
    audio r = path_str (joinpath (Path "root") (name (Path "right/x.wav"))) /\
    aligned_with (group "right/x.wav" [annotation "wind" ["weather"] 2]) r.
Proof.
  apply (@missing_metadata_gives_nulls "root" scenario_meta
           [(Some "a1.wav", row_at scenario_meta 0)] twin_doc
           [group "left/x.wav" [annotation "rain" ["weather"] 1];
            group "right/x.wav" [annotation "wind" ["weather"] 2]]
           1 (group "right/x.wav" [annotation "wind" ["weather"] 2])
           "right/x.wav");
    reflexivity.
Defined.

(** C9. In a run over well-formed groups, a group whose annotation list is
    empty yields its record, at the position of the group: captions, tags
    and annotators are empty, and filename, audio and the three metadata
    fields are filled as for any other group. *)
Theorem empty_annotations_give_empty_lists (audio_root : string)
    (meta_df : DataFrame) (meta_lookup : lookup_table) (doc : value)
    (items : list value) (i : nat) (item : value) (fn : string) :
  build_lookup meta_df = Ok meta_lookup ->
  py_getitem doc "files" = Ok (VList items) ->
  forallb valid_group items = true ->
  nth_error items i = Some item ->
  py_getitem item "filename" = Ok (VStr fn) ->
  py_getitem item "annotations" = Ok (VList []) ->
  exists rows r,
    convert_macs_to_hf audio_root (Ok meta_df) (Ok doc) = Ok rows /\
    nth_error rows i = Some r /\
    process_item audio_root meta_lookup item = Ok r /\
    captions r = [] /\ tags r = [] /\ annotators r = [] /\
    filename r = name (Path fn) /\
    audio r = path_str (joinpath (Path audio_root) (name (Path fn))) /\
    scene r =
      row_get (metadata_for meta_lookup (name (Path fn))) "scene_label" /\
    audio_identifier r =
      row_get (metadata_for meta_lookup (name (Path fn))) "identifier" /\
    audio_source_label r =
      row_get (metadata_for meta_lookup (name (Path fn))) "source_label".
Proof.
  intros Hlookup Hfiles Hall Hi Hfn Hann.
  destruct (@convert_valid audio_root _ _ _ _ Hlookup Hfiles Hall)
    as [rows [Hrun Hrows]].
  destruct (@Forall2_nth_error _ _ _ _ _ i item Hrows Hi) as [r [Hr Hitem]].
  exists rows, r.
  assert (Hrec : process_item audio_root meta_lookup item =
                 Ok (record_of audio_root meta_lookup fn [])).
  { apply process_item_valid; [exact Hfn | exact Hann | reflexivity]. }
  assert (Hsame := Hitem).
  rewrite Hrec in Hsame. injection Hsame as <-.
  repeat split; try assumption; reflexivity.
Qed.

Lemma empty_annotations_give_empty_lists_witness :
  exists rows r,
    convert_macs_to_hf "root" (Ok scenario_meta)
      (Ok (document [group "somepath/a1.wav" []])) = Ok rows /\
    nth_error rows 0 = Some r /\
    process_item "root" [(Some "a1.wav", row_at scenario_meta 0)]
      (group "somepath/a1.wav" []) = Ok r /\
    captions r = [] /\ tags r = [] /\ annotators r = [] /\
    filename r = name (Path "somepath/a1.wav") /\
    audio r = path_str (joinpath (Path "root") (name (Path "somepath/a1.wav"))) /\
    scene r =
      row_get (metadata_for [(Some "a1.wav", row_at scenario_meta 0)]
                 (name (Path "somepath/a1.wav"))) "scene_label" /\
    audio_identifier r =
      row_get (metadata_for [(Some "a1.wav", row_at scenario_meta 0)]
                 (name (Path "somepath/a1.wav"))) "identifier" /\
    audio_source_label r =
      row_get (metadata_for [(Some "a1.wav", row_at scenario_meta 0)]
                 (name (Path "somepath/a1.wav"))) "source_label".
Proof.
  apply (@empty_annotations_give_empty_lists "root" scenario_meta
           [(Some "a1.wav", row_at scenario_meta 0)]
           (document [group "somepath/a1.wav" []])
           [group "somepath/a1.wav" []] 0 (group "somepath/a1.wav" [])
           "somepath/a1.wav");
    reflexivity.
Defined.

(** ** Paths *)

Lemma append_assoc (a b c : string) : (a ++ b) ++ c = a ++ (b ++ c).
Proof.
  induction a as [|ch a IH]; simpl; [reflexivity | rewrite IH; reflexivity].
Qed.

Lemma concat_snoc (sep x b : string) (l : list string) :
  String.concat sep ((x :: l) ++ [b]) = String.concat sep (x :: l) ++ sep ++ b.
Proof.
  revert x. induction l as [|y l IH]; intros x.
  - reflexivity.
  - change (x ++ sep ++ String.concat sep ((y :: l) ++ [b]) =
            (x ++ sep ++ String.concat sep (y :: l)) ++ sep ++ b).
    rewrite IH, !append_assoc. reflexivity.
Qed.

(** Joining a one-component name to a path that has a component puts a
    separator and the name after the text of the path. *)
Lemma joinpath_component (r : path_root) (x : string) (ps : list string) :
  path_str (joinpath (mkPath r (x :: ps)) "a1.wav") =
  path_str (mkPath r (x :: ps)) ++ "/a1.wav".
Proof.
  change (joinpath (mkPath r (x :: ps)) "a1.wav")
    with (mkPath r ((x :: ps) ++ ["a1.wav"])).
  assert (H : forall l, path_str (mkPath r (x :: l)) =
                        root_str r ++ String.concat "/" (x :: l)).
  { intros l. destruct r; reflexivity. }
  rewrite (H ps). change ((x :: ps) ++ ["a1.wav"])%list with (x :: (ps ++ ["a1.wav"])).
  rewrite (H (ps ++ ["a1.wav"])%list).
  change (x :: (ps ++ ["a1.wav"])) with ((x :: ps) ++ ["a1.wav"])%list.
  rewrite concat_snoc, append_assoc. reflexivity.
Qed.

(** C4. The scenario of the specification: one metadata row for
    [audio/a1.wav] and one group for [somepath/a1.wav] give one record;
    both names reduce to the basename [a1.wav] and so join, and audio is
    the audio root joined with that basename, which reads
    [<root>/a1.wav] for a root that has a component. *)
Theorem scenario_record :
  strip_audio_prefix "audio/a1.wav" = "a1.wav" /\
  name (Path "somepath/a1.wav") = "a1.wav" /\
  (forall audio_root,
     convert_macs_to_hf audio_root (Ok scenario_meta) (Ok scenario_doc) =
     Ok [{| filename := "a1.wav";
            scene := VStr "park";
            audio := path_str (joinpath (Path audio_root) "a1.wav");
            captions := [VStr "birds chirping"];
            tags := [VList [VStr "nature"]];
            annotators := [VInt 3];
            audio_identifier := VStr "id1";
            audio_source_label := VStr "src1" |}]) /\
  (forall r x ps,
     path_str (joinpath (mkPath r (x :: ps)) "a1.wav") =
     path_str (mkPath r (x :: ps)) ++ "/a1.wav") /\
  path_str (joinpath (Path "MACS_raw/audio") "a1.wav") = "MACS_raw/audio/a1.wav".
Proof.
  split; [reflexivity|]. split; [reflexivity|].
  split; [intros audio_root; reflexivity|].
  split; [exact joinpath_component | reflexivity].
Qed.

(** ** Filenames across the output *)

(** C5, as stated, fails: two groups whose filenames end in the same
    component give two records with the same filename. *)
Lemma twin_groups_share_a_filename :
  exists rows,
    convert_macs_to_hf "root" (Ok scenario_meta) (Ok twin_doc) = Ok rows /\
    ~ NoDup (map filename rows).
Proof.
  eexists. split; [reflexivity|].
  simpl. intros H. inversion H as [|? ? Hin _]. apply Hin. left. reflexivity.
Qed.

(** C5, amended. The filenames of the records are, in order, the basenames
    of the groups; the join removes no repetition, so the filenames are
    pairwise distinct exactly when the basenames of the groups are. *)
Theorem filenames_are_group_basenames (audio_root : string)
    (meta_read : result DataFrame) (yaml_read : result value)
    (rows : list Row) :
  convert_macs_to_hf audio_root meta_read yaml_read = Ok rows ->
  exists items names,
    yaml_groups yaml_read = Ok items /\
    mapM group_basename items = Ok names /\
    map filename rows = names /\
    (NoDup (map filename rows) <-> NoDup names).
Proof.
  intros H. apply convert_ok_inv in H.
  destruct H as [meta_df [meta_lookup [items [_ [_ [Hitems Hrows]]]]]].
  exists items, (map filename rows).
  split; [exact Hitems|]. split; [|split; [reflexivity | reflexivity]].
  clear Hitems. induction Hrows as [|item r items rows Hr _ IH]; simpl.
  - reflexivity.
  - apply process_item_ok_inv in Hr. destruct Hr as [b [Hb [_ [Hf _]]]].
    rewrite Hb. simpl. rewrite IH. simpl. rewrite Hf. reflexivity.
Qed.

Lemma filenames_are_group_basenames_witness :
  exists items names,
    yaml_groups (Ok twin_doc) = Ok items /\
    mapM group_basename items = Ok names /\
    map filename
      [record_of "root" [] "left/x.wav" [annotation "rain" ["weather"] 1];
       record_of "root" [] "right/x.wav" [annotation "wind" ["weather"] 2]]
    = names /\
    (NoDup (map filename
              [record_of "root" [] "left/x.wav" [annotation "rain" ["weather"] 1];
               record_of "root" [] "right/x.wav" [annotation "wind" ["weather"] 2]])
     <-> NoDup names).
Proof.
  apply (@filenames_are_group_basenames "root" (Ok scenario_meta) (Ok twin_doc)).
  reflexivity.
Defined.

(** ** The annotation loader *)

(** C6, as stated, fails: a document that is a mapping without the key
    [files] makes the run raise [KeyError], not a [FormatError]. *)
Lemma missing_files_key_is_key_error :
  load_annotations (Ok (VDict [])) = Err KeyError /\
  convert_macs_to_hf "root" (Ok scenario_meta) (Ok (VDict [])) = Err KeyError /\
  convert_macs_to_hf "root" (Ok scenario_meta) (Ok (VDict [])) <> Err FormatError.
Proof.
  split; [reflexivity|]. split; [reflexivity|]. discriminate.
Qed.

(** C6, amended. For an annotation document that does not parse, is not a
    mapping, or is a mapping without the key [files], the loader raises
    the parser's exception, [TypeError] or [KeyError] respectively. A run
    whose metadata lookup was built raises that same exception, and no run
    returns a record sequence. *)
Theorem defective_document_raises (yaml_read : result value) (e : exn) :
  document_defect yaml_read = Some e ->
  load_annotations yaml_read = Err e /\
  (forall audio_root meta_df meta_lookup,
     build_lookup meta_df = Ok meta_lookup ->
     convert_macs_to_hf audio_root (Ok meta_df) yaml_read = Err e) /\
  (forall audio_root meta_read,
     exists e', convert_macs_to_hf audio_root meta_read yaml_read = Err e').
Proof.
  intros Hdefect.
  assert (Hload : load_annotations yaml_read = Err e).
  { unfold document_defect in Hdefect. unfold load_annotations.
    destruct yaml_read as [doc|e0]; simpl.
    - destruct doc; try (injection Hdefect as <-; reflexivity).
      simpl. destruct (items_get "files" d); simpl in Hdefect; [discriminate|].
      injection Hdefect as <-. reflexivity.
    - injection Hdefect as <-. reflexivity. }
  assert (Hrun : forall audio_root meta_df meta_lookup,
             build_lookup meta_df = Ok meta_lookup ->
             convert_macs_to_hf audio_root (Ok meta_df) yaml_read = Err e).
  { intros audio_root meta_df meta_lookup Hlookup.
    unfold convert_macs_to_hf. simpl. rewrite Hlookup. simpl.
    unfold load_annotations in Hload.
    destruct yaml_read as [doc|e0]; simpl in *.
    - rewrite Hload. reflexivity.
    - injection Hload as <-. reflexivity. }
  split; [exact Hload|]. split; [exact Hrun|].
  intros audio_root meta_read.
  destruct meta_read as [meta_df|e1]; [|exists e1; reflexivity].
  destruct (build_lookup meta_df) as [meta_lookup|e2] eqn:Hlookup.
  - exists e. eapply Hrun. exact Hlookup.
  - exists e2. unfold convert_macs_to_hf. simpl. rewrite Hlookup. reflexivity.
Qed.

Lemma defective_document_raises_witness :
  load_annotations (Ok (VDict [])) = Err KeyError /\
  (forall audio_root meta_df meta_lookup,
     build_lookup meta_df = Ok meta_lookup ->
     convert_macs_to_hf audio_root (Ok meta_df) (Ok (VDict [])) = Err KeyError) /\
  (forall audio_root meta_read,
     exists e', convert_macs_to_hf audio_root meta_read (Ok (VDict [])) = Err e').
Proof.
  apply (@defective_document_raises (Ok (VDict [])) KeyError).
  reflexivity.
Defined.

(** ** The metadata lookup *)

Lemma key_eqb_refl (k : option string) : key_eqb k k = true.
Proof.
  destruct k as [s|]; simpl; [apply String.eqb_refl | reflexivity].
Qed.

Lemma existsb_nth_error (k : option string) (keys : list (option string))
    (j : nat) :
  nth_error keys j = Some k -> existsb (key_eqb k) keys = true.
Proof.
  intros H. apply existsb_exists. exists k. split.
  - eapply nth_error_In. exact H.
  - apply key_eqb_refl.
Qed.

(** A label that stands at two positions makes the index non-unique. *)
Lemma is_unique_repeat (keys : list (option string)) (i j : nat)
    (k : option string) :
  i < j -> nth_error keys i = Some k -> nth_error keys j = Some k ->
  is_unique keys = false.
Proof.
  revert i j. induction keys as [|k0 rest IH]; intros i j Hij Hi Hj.
  - destruct i; discriminate Hi.
  - destruct j as [|j]; [lia|]. simpl in Hj. simpl.
    destruct i as [|i]; simpl in Hi.
    + injection Hi as ->. rewrite (existsb_nth_error _ _ Hj). reflexivity.
    + rewrite (IH i j); [apply andb_false_r | lia | exact Hi | exact Hj].
Qed.

(** C8. When two rows of the metadata table have the same basename, the
    lookup is not built: [to_dict] raises [ValueError], and so does every
    run, whatever the annotation document is (it is not read yet); no row
    wins over the other. *)
Theorem duplicate_basename_rejected (meta_df : DataFrame)
    (keys : list (option string)) (i j : nat) (b : string) :
  basenames_of meta_df = Ok keys ->
  i <> j ->
  nth_error keys i = Some (Some b) ->
  nth_error keys j = Some (Some b) ->
  build_lookup meta_df = Err ValueError /\
  forall audio_root yaml_read,
    convert_macs_to_hf audio_root (Ok meta_df) yaml_read = Err ValueError.
Proof.
  intros Hkeys Hij Hi Hj.
  assert (Hdup : is_unique keys = false).
  { destruct (Nat.lt_total i j) as [Hlt | [Heq | Hgt]].
    - eapply is_unique_repeat; eassumption.
    - contradiction.
    - eapply is_unique_repeat; eassumption. }
  assert (Hbuild : build_lookup meta_df = Err ValueError).
  { unfold build_lookup. unfold basenames_of in Hkeys.
    destruct (df_getitem meta_df "filename") as [fn|e]; simpl in *;
      [|discriminate Hkeys].
    rewrite Hkeys. simpl. unfold to_dict_index. rewrite Hdup. reflexivity. }
  split; [exact Hbuild|].
  intros audio_root yaml_read. unfold convert_macs_to_hf. simpl.
  rewrite Hbuild. reflexivity.
Qed.

Lemma duplicate_basename_rejected_witness :
  build_lookup twice_meta = Err ValueError /\
  forall audio_root yaml_read,
    convert_macs_to_hf audio_root (Ok twice_meta) yaml_read = Err ValueError.
Proof.
  apply (@duplicate_basename_rejected twice_meta
           [Some "a1.wav"; Some "a1.wav"] 0 1 "a1.wav");
    [reflexivity | discriminate | reflexivity | reflexivity].
Defined.

(** ** Metadata rows that no group names *)

Lemma lookup_get_restrict (names : list string) (t : lookup_table)
    (b : string) :
  existsb (String.eqb b) names = true ->
  lookup_get (restrict names t) b = lookup_get t b.
Proof.
  intros Hb. induction t as [|[k r] rest IH]; simpl; [reflexivity|].
  destruct (used_key names k) eqn:Hused; simpl.
  - rewrite IH. reflexivity.
  - destruct k as [s|]; simpl; [|exact IH].
    destruct (String.eqb_spec s b) as [->|Hne]; [|exact IH].
    simpl in Hused. rewrite Hb in Hused. discriminate Hused.
Qed.

(** The record of a group depends on the lookup only at the basename of the
    group. *)
Lemma process_item_lookup_ext (audio_root : string) (t1 t2 : lookup_table)
    (item : value) :
  (forall b, group_basename item = Ok b -> lookup_get t1 b = lookup_get t2 b) ->
  process_item audio_root t1 item = process_item audio_root t2 item.
Proof.
  unfold process_item, group_basename. intros H.
  destruct (py_getitem item "filename") as [[| | | |fn| |]|e]; simpl in *;
    try reflexivity.
  rewrite (H (name (Path fn)) eq_refl). reflexivity.
Qed.

Lemma group_names_In (yaml_read : result value) (items : list value)
    (item : value) (b : string) :
  yaml_groups yaml_read = Ok items -> In item items ->
  group_basename item = Ok b ->
  existsb (String.eqb b) (group_names yaml_read) = true.
Proof.
  intros Hitems Hin Hb. unfold group_names. rewrite Hitems.
  apply existsb_exists. exists b. split; [|apply String.eqb_refl].
  apply in_flat_map. exists item. split; [exact Hin|].
  rewrite Hb. left. reflexivity.
Qed.

(** Two lookups that hold the same entries under the basenames of the
    groups of the annotation document give the same outcome of the run. *)
Lemma same_named_entries_same_outcome (audio_root : string)
    (meta_df1 meta_df2 : DataFrame) (t1 t2 : lookup_table)
    (yaml_read : result value) :
  build_lookup meta_df1 = Ok t1 ->
  build_lookup meta_df2 = Ok t2 ->
  restrict (group_names yaml_read) t1 = restrict (group_names yaml_read) t2 ->
  convert_macs_to_hf audio_root (Ok meta_df1) yaml_read =
  convert_macs_to_hf audio_root (Ok meta_df2) yaml_read.
Proof.
  intros H1 H2 Hsame. unfold convert_macs_to_hf. simpl.
  rewrite H1, H2. simpl.
  destruct yaml_read as [doc|e]; simpl; [|reflexivity].
  destruct (py_getitem doc "files") as [yaml_items|e] eqn:Hfiles; simpl;
    [|reflexivity].
  destruct (py_len yaml_items) as [n|e]; simpl; [|reflexivity].
  destruct (py_iter yaml_items) as [items|e] eqn:Hiter; simpl; [|reflexivity].
  rewrite !join_loop_mapM.
  rewrite (@mapM_ext_in _ _ (process_item audio_root t1)
             (process_item audio_root t2) items); [reflexivity|].
  intros item Hin. apply process_item_lookup_ext. intros b Hb.
  assert (Hgroups : yaml_groups (Ok doc) = Ok items).
  { unfold yaml_groups. simpl. rewrite Hfiles. simpl. exact Hiter. }
  pose proof (group_names_In _ _ Hgroups Hin Hb) as Hmem.
  rewrite <- (lookup_get_restrict _ t1 _ Hmem),
          <- (lookup_get_restrict _ t2 _ Hmem), Hsame.
  reflexivity.
Qed.

(** ** Delimiter sniffing *)

(** A line handed out by [readline] splits at the newline into its body
    alone or into its body and an empty rest. *)
Lemma readline_split (content : string) :
  exists body,
    (split_on newline (readline content) = [body] \/
     split_on newline (readline content) = [body; ""]) /\
    forall c, c <> newline ->
              count_char c body = count_char c (readline content).
Proof.
  induction content as [|ch rest IH].
  - exists "". split; [left; reflexivity | intros; reflexivity].
  - cbn [readline]. destruct (Ascii.eqb ch newline) eqn:E.
    + apply Ascii.eqb_eq in E. subst ch.
      exists "". split.
      * right. cbn [split_on]. rewrite Ascii.eqb_refl. reflexivity.
      * intros c Hc. cbn [count_char].
        destruct (Ascii.eqb_spec newline c) as [Heq|_]; [|reflexivity].
        symmetry in Heq. contradiction.
    + destruct IH as [body [Hsplit Hcount]].
      exists (String ch body). split.
      * cbn [split_on]. rewrite E.
        destruct Hsplit as [-> | ->]; [left | right]; reflexivity.
      * intros c Hc. cbn [count_char]. rewrite (Hcount c Hc). reflexivity.
Qed.

Lemma count_char_nonempty (c : ascii) (s : string) :
  0 < count_char c s -> nonempty s = true.
Proof.
  destruct s; simpl; [lia | reflexivity].
Qed.

Lemma readline_lines (content : string) (c : ascii) :
  c <> newline -> 0 < count_char c (readline content) ->
  exists body,
    filter nonempty (split_on newline (readline content)) = [body] /\
    forall c', c' <> newline ->
               count_char c' body = count_char c' (readline content).
Proof.
  intros Hc Hpos. destruct (readline_split content) as [body [Hsplit Hcount]].
  exists body. split; [|exact Hcount].
  rewrite <- (Hcount c Hc) in Hpos. apply count_char_nonempty in Hpos.
  destruct Hsplit as [-> | ->]; simpl; rewrite Hpos; reflexivity.
Qed.

Lemma line_delims_In (line : string) (delimiters : list ascii) (c : ascii)
    (n : nat) :
  In (c, n) (line_delims line delimiters) <->
  In c ascii7 /\ n = count_char c line /\ 0 < n /\ mem c delimiters = true.
Proof.
  unfold line_delims. rewrite filter_In, in_map_iff. simpl. split.
  - intros [[c' [Heq Hin]] Htest]. injection Heq as -> <-.
    apply andb_prop in Htest. destruct Htest as [Hpos Hmem].
    apply Nat.ltb_lt in Hpos. auto.
  - intros [Hin [-> [Hpos Hmem]]]. split.
    + exists c. split; [reflexivity | exact Hin].
    + apply Nat.ltb_lt in Hpos. rewrite Hpos, Hmem. reflexivity.
Qed.

Lemma mem_fst (c : ascii) (n : nat) (delims : list (ascii * nat)) :
  In (c, n) delims -> mem c (map fst delims) = true.
Proof.
  intros H. apply existsb_exists. exists c. split.
  - apply in_map_iff. exists (c, n). split; [reflexivity | exact H].
  - apply Ascii.eqb_refl.
Qed.

Lemma mem_fst_inv (c : ascii) (delims : list (ascii * nat)) :
  mem c (map fst delims) = true -> exists n, In (c, n) delims.
Proof.
  intros H. apply existsb_exists in H. destruct H as [x [Hin Heq]].
  apply Ascii.eqb_eq in Heq. subst x.
  apply in_map_iff in Hin. destruct Hin as [[c' n] [Hfst Hin]].
  simpl in Hfst. subst c'. exists n. exact Hin.
Qed.

(** Among several candidates the comma wins, being first in [preferred]. *)
Lemma pick_comma (delims : list (ascii * nat)) (n : nat) :
  In (comma, n) delims ->
  match delims with
  | [] => None
  | [(d, _)] => Some d
  | _ =>
      match find (fun d => mem d (map fst delims)) preferred with
      | Some d => Some d
      | None => dominant delims
      end
  end = Some comma.
Proof.
  intros Hin. pose proof (mem_fst _ _ _ Hin) as Hmem. revert Hmem.
  generalize (map fst delims) as ks. intros ks Hmem.
  destruct delims as [|[d m] [|p rest]].
  - contradiction.
  - destruct Hin as [Heq|[]]. injection Heq as -> _. reflexivity.
  - unfold preferred. cbn [find]. rewrite Hmem. reflexivity.
Qed.

(** Without a comma among the candidates, the tab wins. *)
Lemma pick_tab (delims : list (ascii * nat)) (n : nat) :
  In (tab, n) delims ->
  (forall m, ~ In (comma, m) delims) ->
  match delims with
  | [] => None
  | [(d, _)] => Some d
  | _ =>
      match find (fun d => mem d (map fst delims)) preferred with
      | Some d => Some d
      | None => dominant delims
      end
  end = Some tab.
Proof.
  intros Hin Hno. pose proof (mem_fst _ _ _ Hin) as Hmem.
  assert (Hcomma : mem comma (map fst delims) = false).
  { destruct (mem comma (map fst delims)) eqn:E; [|reflexivity].
    apply mem_fst_inv in E. destruct E as [m Hm]. destruct (Hno m Hm). }
  revert Hmem Hcomma. generalize (map fst delims) as ks. intros ks Hmem Hcomma.
  destruct delims as [|[d m] [|p rest]].
  - contradiction.
  - destruct Hin as [Heq|[]]. injection Heq as -> _. reflexivity.
  - unfold preferred. cbn [find]. rewrite Hcomma, Hmem. reflexivity.
Qed.

Lemma comma_in_ascii7 : In comma ascii7.
Proof.
  unfold ascii7. apply in_map_iff. exists 44. split; [reflexivity|].
  apply in_seq. lia.
Qed.

Lemma tab_in_ascii7 : In tab ascii7.
Proof.
  unfold ascii7. apply in_map_iff. exists 9. split; [reflexivity|].
  apply in_seq. lia.
Qed.

Section SniffedLine.

Variable quote_regexps : string -> list ascii -> option ascii.
Variable chunked_guess : list string -> list ascii -> option ascii.

(** A first line without quote characters that holds a comma is sniffed
    as comma-separated. *)
Lemma sniff_comma (content : string) :
  has_quote (readline content) = false ->
  0 < count_char comma (readline content) ->
  sniff quote_regexps chunked_guess (readline content)
        [comma; tab; semicolon] = Ok comma.
Proof.
  intros Hq Hpos. unfold sniff, guess_quote_and_delimiter. rewrite Hq.
  destruct (@readline_lines content comma) as [body [Hlines Hcount]];
    [discriminate | exact Hpos |].
  unfold guess_delimiter. rewrite Hlines. cbv zeta.
  rewrite (@pick_comma _ (count_char comma body)); [reflexivity|].
  apply line_delims_In. repeat split.
  - exact comma_in_ascii7.
  - rewrite Hcount; [exact Hpos | discriminate].
Qed.

(** A first line without quote characters that holds a tab and no comma
    is sniffed as tab-separated. *)
Lemma sniff_tab (content : string) :
  has_quote (readline content) = false ->
  0 < count_char tab (readline content) ->
  count_char comma (readline content) = 0 ->
  sniff quote_regexps chunked_guess (readline content)
        [comma; tab; semicolon] = Ok tab.
Proof.
  intros Hq Hpos Hzero. unfold sniff, guess_quote_and_delimiter. rewrite Hq.
  destruct (@readline_lines content tab) as [body [Hlines Hcount]];
    [discriminate | exact Hpos |].
  unfold guess_delimiter. rewrite Hlines. cbv zeta.
  rewrite (@pick_tab _ (count_char tab body)); [reflexivity| |].
  - apply line_delims_In. repeat split.
    + exact tab_in_ascii7.
    + rewrite Hcount; [exact Hpos | discriminate].
  - intros m Hm. apply line_delims_In in Hm.
    destruct Hm as [_ [-> [Hm _]]].
    rewrite Hcount in Hm; [lia | discriminate].
Qed.

End SniffedLine.

(** C7, as stated, fails. The table [comma_label_table] has a column label
    that holds a comma. Its tab-separated file has a first line with a tab
    and a comma, which the sniffer takes for comma-separated: read under
    the comma it has no [filename] column and the Tabular Reader raises
    [KeyError], whatever the two parameters of the sniffer are. Its
    comma-separated file, whose quoted label makes the sniffer's regular
    expressions settle on the comma, gives the mapping of the table. *)
Lemma comma_in_label_breaks_tab_reading :
  simple_reader comma_label_csv comma = Ok comma_label_table /\
  simple_reader comma_label_tsv tab = Ok comma_label_table /\
  build_lookup comma_label_table =
    Ok [(Some "a1.wav",
         [("filename", VStr "audio/a1.wav"); ("scene,label", VStr "park")])] /\
  (forall quote_regexps chunked_guess,
     tabular_reader quote_regexps chunked_guess simple_reader
       (Ok comma_label_tsv) = Err KeyError) /\
  tabular_reader (fun _ _ => Some comma) (fun _ _ => None) simple_reader
    (Ok comma_label_csv) =
    Ok [(Some "a1.wav",
         [("filename", VStr "audio/a1.wav"); ("scene,label", VStr "park")])].
Proof.
  split; [reflexivity|]. split; [reflexivity|]. split; [reflexivity|].
  split; [intros quote_regexps chunked_guess; reflexivity | reflexivity].
Qed.

(** C7, amended. Take a comma-separated and a tab-separated file that
    [read_csv] reads, each under its own delimiter, to the same table. If
    the first line of neither holds a quote character, that of the first
    holds a comma, and that of the second holds a tab and no comma, then
    [smart_read_csv] reads both to that table and the Tabular Reader gives
    the same outcome for both. *)
Theorem sniffed_files_read_alike
    (quote_regexps : string -> list ascii -> option ascii)
    (chunked_guess : list string -> list ascii -> option ascii)
    (read_csv : string -> ascii -> result DataFrame)
    (csv_text tsv_text : string) (table : DataFrame) :
  has_quote (readline csv_text) = false ->
  0 < count_char comma (readline csv_text) ->
  has_quote (readline tsv_text) = false ->
  0 < count_char tab (readline tsv_text) ->
  count_char comma (readline tsv_text) = 0 ->
  read_csv csv_text comma = Ok table ->
  read_csv tsv_text tab = Ok table ->
  smart_read_csv quote_regexps chunked_guess read_csv (Ok csv_text) = Ok table /\
  smart_read_csv quote_regexps chunked_guess read_csv (Ok tsv_text) = Ok table /\
  tabular_reader quote_regexps chunked_guess read_csv (Ok csv_text) =
  tabular_reader quote_regexps chunked_guess read_csv (Ok tsv_text).
Proof.
  intros Hq1 Hc1 Hq2 Ht2 Hc2 Hr1 Hr2.
  assert (H1 : smart_read_csv quote_regexps chunked_guess read_csv
                 (Ok csv_text) = Ok table).
  { unfold smart_read_csv. cbn [bind].
    rewrite (sniff_comma quote_regexps chunked_guess csv_text Hq1 Hc1).
    cbn [bind]. exact Hr1. }
  assert (H2 : smart_read_csv quote_regexps chunked_guess read_csv
                 (Ok tsv_text) = Ok table).
  { unfold smart_read_csv. cbn [bind].
    rewrite (sniff_tab quote_regexps chunked_guess tsv_text Hq2 Ht2 Hc2).
    cbn [bind]. exact Hr2. }
  split; [exact H1|]. split; [exact H2|].
  unfold tabular_reader. rewrite H1, H2. reflexivity.
Qed.

Lemma sniffed_files_read_alike_witness :
  smart_read_csv (fun _ _ => None) (fun _ _ => None) simple_reader
    (Ok (render comma plain_table)) = Ok scenario_meta /\
  smart_read_csv (fun _ _ => None) (fun _ _ => None) simple_reader
    (Ok (render tab plain_table)) = Ok scenario_meta /\
  tabular_reader (fun _ _ => None) (fun _ _ => None) simple_reader
    (Ok (render comma plain_table)) =
  tabular_reader (fun _ _ => None) (fun _ _ => None) simple_reader
    (Ok (render tab plain_table)).
Proof.
  apply (@sniffed_files_read_alike (fun _ _ => None) (fun _ _ => None)
           simple_reader (render comma plain_table) (render tab plain_table)
           scenario_meta);
    solve [reflexivity | vm_compute; lia].
Defined.

(** * Further properties *)

(** ** The prefix removed on the metadata side *)

Lemma substring_all (s : string) : String.substring 0 (String.length s) s = s.
Proof.
  induction s as [|c s IH]; simpl; [reflexivity | rewrite IH; reflexivity].
Qed.

Lemma prefix_split (p s : string) :
  String.prefix p s = true ->
  s = p ++ String.substring (String.length p)
             (String.length s - String.length p) s.
Proof.
  revert s. induction p as [|c p IH]; intros s H; simpl.
  - rewrite Nat.sub_0_r, substring_all. reflexivity.
  - destruct s as [|c' s]; simpl in H; [discriminate H|].
    destruct (ascii_dec c c') as [->|Hne]; [|discriminate H].
    simpl. f_equal. apply IH. exact H.
Qed.

(** X1. The metadata side removes exactly one leading [audio/]: a string
    that starts with it loses that prefix once and nothing else, any
    other string is left as it is. *)
Theorem strip_audio_prefix_once (s : string) :
  strip_audio_prefix ("audio/" ++ s) = s /\
  ((String.prefix "audio/" s = true /\ s = "audio/" ++ strip_audio_prefix s) \/
   (String.prefix "audio/" s = false /\ strip_audio_prefix s = s)).
Proof.
  split.
  - unfold strip_audio_prefix. simpl.
    destruct s as [|c s]; simpl; [reflexivity|].
    rewrite substring_all. reflexivity.
  - unfold strip_audio_prefix.
    destruct (String.prefix "audio/" s) eqn:E; [left | right];
      (split; [reflexivity|]).
    + apply (prefix_split "audio/" s E).
    + reflexivity.
Qed.

(** ** Basenames *)

Lemma split_on_pieces (sep : ascii) (s x : string) :
  In x (split_on sep s) -> count_char sep x = 0.
Proof.
  revert x. induction s as [|c s IH]; intros x Hin.
  - destruct Hin as [<-|[]]. reflexivity.
  - cbn [split_on] in Hin. destruct (Ascii.eqb c sep) eqn:E.
    + destruct Hin as [<-|Hin]; [reflexivity | apply IH; exact Hin].
    + destruct (split_on sep s) as [|w ws].
      * destruct Hin as [<-|[]]. cbn [count_char]. rewrite E. reflexivity.
      * destruct Hin as [<-|Hin].
        -- cbn [count_char]. rewrite E. simpl. apply IH. left. reflexivity.
        -- apply IH. right. exact Hin.
Qed.

Lemma split_on_whole (sep : ascii) (s : string) :
  count_char sep s = 0 -> split_on sep s = [s].
Proof.
  induction s as [|c s IH]; intros H; [reflexivity|].
  cbn [count_char] in H. cbn [split_on].
  destruct (Ascii.eqb c sep); [discriminate H|].
  simpl in H. rewrite (IH H). reflexivity.
Qed.

Lemma last_In {A : Type} (l : list A) (d : A) : l <> [] -> In (last l d) l.
Proof.
  induction l as [|x l IH]; intros H; [contradiction|].
  destruct l as [|y l]; [left; reflexivity|].
  right. apply IH. discriminate.
Qed.

(** The name of a path is empty, or a component without separator. *)
Lemma name_component (s : string) :
  name (Path s) = "" \/
  (is_component (name (Path s)) = true /\ count_char slash (name (Path s)) = 0).
Proof.
  unfold name, Path. simpl parts.
  destruct (filter is_component (split_on slash s)) as [|x l] eqn:E.
  - left. reflexivity.
  - right. rewrite <- E.
    assert (Hin : In (last (filter is_component (split_on slash s)) "")
                     (filter is_component (split_on slash s))).
    { apply last_In. rewrite E. discriminate. }
    apply filter_In in Hin. destruct Hin as [Hin Hc]. split; [exact Hc|].
    eapply split_on_pieces. exact Hin.
Qed.

Lemma Path_of_component (b : string) :
  is_component b = true -> count_char slash b = 0 ->
  Path b = mkPath NoRoot [b].
Proof.
  intros Hc H0. unfold Path. rewrite (split_on_whole slash b H0).
  cbn [filter]. rewrite Hc. f_equal.
  destruct b as [|c b]; [reflexivity|].
  unfold splitroot. cbn [leading_slashes]. cbn [count_char] in H0.
  destruct (Ascii.eqb c slash); [discriminate H0 | reflexivity].
Qed.

Lemma joinpath_name (p : PurePath) (s : string) :
  joinpath p (name (Path s)) =
  mkPath (root p)
         (parts p ++ (if nonempty (name (Path s)) then [name (Path s)] else [])).
Proof.
  destruct (name_component s) as [H | [Hc H0]].
  - rewrite H. reflexivity.
  - unfold joinpath. rewrite (Path_of_component _ Hc H0). simpl.
    unfold is_component in Hc. apply andb_prop in Hc. destruct Hc as [Hc _].
    unfold nonempty. rewrite Hc. reflexivity.
Qed.

(** X2. The filename of a record holds no separator and is not [.], and
    the audio path is the audio root with that filename appended as one
    component (the root itself when the filename is empty): a group
    filename that is absolute or has directories never replaces the audio
    root nor adds a directory under it. *)
Theorem audio_is_root_plus_basename (audio_root : string)
    (meta_lookup : lookup_table) (item : value) (r : Row) :
  process_item audio_root meta_lookup item = Ok r ->
  count_char slash (filename r) = 0 /\
  filename r <> "." /\
  audio r =
    path_str (mkPath (root (Path audio_root))
                (parts (Path audio_root) ++
                 (if nonempty (filename r) then [filename r] else []))).
Proof.
  intros H. apply process_item_ok_inv in H.
  destruct H as [b [Hb [_ [Hf [Ha _]]]]].
  unfold group_basename in Hb.
  apply bind_ok in Hb. destruct Hb as [fnv [_ Hb]].
  apply bind_ok in Hb. destruct Hb as [fn [_ Hb]].
  injection Hb as <-. rewrite Ha, Hf.
  split; [|split].
  - destruct (name_component fn) as [-> | [_ H0]]; [reflexivity | exact H0].
  - destruct (name_component fn) as [-> | [Hc _]]; [discriminate|].
    intros Heq. rewrite Heq in Hc. discriminate Hc.
  - rewrite joinpath_name. reflexivity.
Qed.

Lemma audio_is_root_plus_basename_witness :
  count_char slash (filename (record_of "MACS_raw/audio" [] "/etc/a1.wav" [])) = 0 /\
  filename (record_of "MACS_raw/audio" [] "/etc/a1.wav" []) <> "." /\
  audio (record_of "MACS_raw/audio" [] "/etc/a1.wav" []) =
    path_str (mkPath (root (Path "MACS_raw/audio"))
                (parts (Path "MACS_raw/audio") ++
                 (if nonempty (filename (record_of "MACS_raw/audio" []
                                           "/etc/a1.wav" []))
                  then [filename (record_of "MACS_raw/audio" [] "/etc/a1.wav" [])]
                  else []))).
Proof.
  apply (@audio_is_root_plus_basename "MACS_raw/audio" []
           (group "/etc/a1.wav" [])).
  reflexivity.
Defined.

(** ** The lookup as a map *)

Lemma key_eqb_eq (a b : option string) : key_eqb a b = true <-> a = b.
Proof.
  destruct a as [x|], b as [y|]; simpl; split; intros H;
    try reflexivity; try discriminate H.
  - apply String.eqb_eq in H. subst. reflexivity.
  - injection H as ->. apply String.eqb_refl.
Qed.

Lemma existsb_key_In (k : option string) (keys : list (option string)) :
  existsb (key_eqb k) keys = true <-> In k keys.
Proof.
  rewrite existsb_exists. split.
  - intros [x [Hin Heq]]. apply key_eqb_eq in Heq. subst. exact Hin.
  - intros Hin. exists k. split; [exact Hin | apply key_eqb_refl].
Qed.

Lemma is_unique_NoDup (keys : list (option string)) :
  is_unique keys = true <-> NoDup keys.
Proof.
  induction keys as [|k rest IH]; simpl.
  - split; [constructor | reflexivity].
  - rewrite andb_true_iff, negb_true_iff, IH. split.
    + intros [Hk Hrest]. constructor; [|exact Hrest].
      intros Hin. apply existsb_key_In in Hin. rewrite Hin in Hk. discriminate.
    + intros H. inversion H as [|? ? Hk Hrest]; subst. split; [|exact Hrest].
      destruct (existsb (key_eqb k) rest) eqn:E; [|reflexivity].
      apply existsb_key_In in E. contradiction.
Qed.

Lemma assoc_setitem_other (df : DataFrame) (c col : string) (s : Series) :
  col <> c -> assoc col (df_setitem df c s) = assoc col df.
Proof.
  intros Hne. induction df as [|[c' s'] rest IH]; simpl.
  - destruct (String.eqb_spec c col) as [->|_]; [contradiction | reflexivity].
  - destruct (String.eqb_spec c' c) as [->|Hc]; simpl.
    + destruct (String.eqb_spec c col) as [->|_]; [contradiction | reflexivity].
    + rewrite IH. reflexivity.
Qed.

Lemma assoc_drop_other (df : DataFrame) (c col : string) :
  col <> c -> assoc col (df_drop df c) = assoc col df.
Proof.
  intros Hne. induction df as [|[c' s'] rest IH]; simpl; [reflexivity|].
  destruct (String.eqb_spec c' c) as [->|Hc]; simpl.
  - destruct (String.eqb_spec c col) as [->|_]; [contradiction | reflexivity].
  - rewrite IH. reflexivity.
Qed.

Lemma row_get_row_at (df : DataFrame) (col : string) (i : nat) :
  row_get (row_at df i) col = column_cell df col i.
Proof.
  unfold row_get, column_cell, row_at.
  induction df as [|[c s] rest IH]; simpl; [reflexivity|].
  destruct (String.eqb c col); [reflexivity | exact IH].
Qed.

(** In an index without repetition, the label at position [i] finds the
    row at position [i]. *)
Lemma lookup_get_index (f : nat -> row_dict) (keys : list (option string))
    (s i : nat) (b : string) :
  is_unique keys = true ->
  nth_error keys i = Some (Some b) ->
  lookup_get (map (fun ik => (snd ik, f (fst ik)))
                  (combine (seq s (List.length keys)) keys)) b =
  Some (f (s + i)).
Proof.
  revert s i. induction keys as [|k rest IH]; intros s i Hu Hi.
  - destruct i; discriminate Hi.
  - simpl in Hu. apply andb_prop in Hu. destruct Hu as [Hk Hrest].
    cbn [List.length seq combine map lookup_get fst snd].
    destruct i as [|i]; simpl in Hi.
    + injection Hi as ->. rewrite key_eqb_refl, Nat.add_0_r. reflexivity.
    + destruct (key_eqb k (Some b)) eqn:E.
      * apply key_eqb_eq in E. subst k.
        rewrite (existsb_nth_error _ _ Hi) in Hk. discriminate Hk.
      * rewrite (IH (S s) i Hrest Hi). f_equal. f_equal. lia.
Qed.

Lemma build_lookup_inv (meta_df : DataFrame) (t : lookup_table) :
  build_lookup meta_df = Ok t ->
  exists l,
    df_getitem meta_df "filename" = Ok (ObjectCol l) /\
    is_unique (map (option_map strip_audio_prefix) l) = true /\
    t = map (fun ik =>
               (snd ik,
                row_at (df_drop (df_setitem meta_df "basename"
                                   (ObjectCol (map (option_map strip_audio_prefix) l)))
                                "basename") (fst ik)))
            (combine (seq 0 (List.length (map (option_map strip_audio_prefix) l)))
                     (map (option_map strip_audio_prefix) l)).
Proof.
  unfold build_lookup. intros H.
  apply bind_ok in H. destruct H as [fn [Hfn H]].
  apply bind_ok in H. destruct H as [keys [Hkeys H]].
  destruct fn as [l| | |]; try discriminate Hkeys.
  injection Hkeys as <-. exists l. split; [exact Hfn|].
  unfold to_dict_index in H.
  destruct (is_unique (map (option_map strip_audio_prefix) l)); [|discriminate H].
  injection H as <-. split; reflexivity.
Qed.

(** A row with a filename is found under its basename, with its cells. *)
Lemma lookup_get_row (meta_df : DataFrame) (t : lookup_table)
    (l : list (option string)) (i : nat) (f : string) :
  build_lookup meta_df = Ok t ->
  df_getitem meta_df "filename" = Ok (ObjectCol l) ->
  nth_error l i = Some (Some f) ->
  exists m,
    lookup_get t (strip_audio_prefix f) = Some m /\
    forall col, col <> "basename" -> row_get m col = column_cell meta_df col i.
Proof.
  intros Hbuild Hfn Hi.
  destruct (build_lookup_inv _ Hbuild) as [l' [Hfn' [Hu ->]]].
  rewrite Hfn in Hfn'. injection Hfn' as <-.
  eexists. split.
  - rewrite (@lookup_get_index _ _ 0 i (strip_audio_prefix f) Hu).
    + reflexivity.
    + rewrite nth_error_map, Hi. reflexivity.
  - intros col Hcol. simpl. rewrite row_get_row_at. unfold column_cell.
    rewrite assoc_drop_other, assoc_setitem_other by exact Hcol. reflexivity.
Qed.

(** X3. In a lookup that was built, every row of the table that has a
    filename is found under that filename without its leading [audio/],
    and the dict found holds the cells of that very row, column by column
    (the original filename included). *)
Theorem lookup_round_trip (meta_df : DataFrame) (t : lookup_table)
    (l : list (option string)) (i : nat) (f : string) :
  build_lookup meta_df = Ok t ->
  df_getitem meta_df "filename" = Ok (ObjectCol l) ->
  nth_error l i = Some (Some f) ->
  exists m,
    lookup_get t (strip_audio_prefix f) = Some m /\
    row_get m "filename" = VStr f /\
    forall col, col <> "basename" -> row_get m col = column_cell meta_df col i.
Proof.
  intros Hbuild Hfn Hi.
  destruct (lookup_get_row _ _ Hbuild Hfn Hi) as [m [Hm Hcells]].
  exists m. split; [exact Hm|]. split; [|exact Hcells].
  rewrite Hcells by discriminate. unfold column_cell.
  unfold df_getitem in Hfn. destruct (assoc "filename" meta_df); [|discriminate Hfn].
  injection Hfn as ->. simpl. rewrite Hi. reflexivity.
Qed.

Lemma lookup_round_trip_witness :
  exists m,
    lookup_get [(Some "z9.wav", row_at wider_meta 0);
                (Some "a1.wav", row_at wider_meta 1)]
      (strip_audio_prefix "audio/a1.wav") = Some m /\
    row_get m "filename" = VStr "audio/a1.wav" /\
    forall col, col <> "basename" -> row_get m col = column_cell wider_meta col 1.
Proof.
  apply (@lookup_round_trip wider_meta
           [(Some "z9.wav", row_at wider_meta 0);
            (Some "a1.wav", row_at wider_meta 1)]
           [Some "audio/z9.wav"; Some "audio/a1.wav"] 1 "audio/a1.wav");
    reflexivity.
Defined.

(** X4. The lookup is built exactly when the table has a text column
    [filename] whose basenames are pairwise distinct (missing filenames
    counting as one basename); it then has one entry per row, keyed by the
    basenames in table order. *)
Theorem build_lookup_succeeds_iff (meta_df : DataFrame) :
  ((exists t, build_lookup meta_df = Ok t) <->
   (exists l, df_getitem meta_df "filename" = Ok (ObjectCol l) /\
              NoDup (map (option_map strip_audio_prefix) l))) /\
  (forall t, build_lookup meta_df = Ok t ->
             basenames_of meta_df = Ok (map fst t)).
Proof.
  split; [split|].
  - intros [t Ht]. destruct (build_lookup_inv _ Ht) as [l [Hfn [Hu _]]].
    exists l. split; [exact Hfn | apply is_unique_NoDup; exact Hu].
  - intros [l [Hfn Hnd]]. apply is_unique_NoDup in Hnd.
    unfold build_lookup. rewrite Hfn. simpl. unfold to_dict_index.
    rewrite Hnd. eexists. reflexivity.
  - intros t Ht. destruct (build_lookup_inv _ Ht) as [l [Hfn [_ ->]]].
    unfold basenames_of. rewrite Hfn. simpl. f_equal.
    rewrite map_map. simpl.
    generalize (map (option_map strip_audio_prefix) l) as keys.
    intros keys. generalize 0 as s.
    induction keys as [|k rest IH]; intros s; simpl; [reflexivity|].
    f_equal. apply IH.
Qed.

(** ** The join against the table *)

(** X5. The join is correct against the table: when the filename of a
    record is the basename of row [i] of the metadata table, its scene,
    audio_identifier and audio_source_label are the cells of that row in
    the columns [scene_label], [identifier] and [source_label] ([None] for
    a column the table does not have). *)
Theorem record_takes_the_cells_of_its_row (audio_root : string)
    (meta_df : DataFrame) (t : lookup_table) (l : list (option string))
    (i : nat) (f : string) (item : value) (r : Row) :
  build_lookup meta_df = Ok t ->
  df_getitem meta_df "filename" = Ok (ObjectCol l) ->
  nth_error l i = Some (Some f) ->
  process_item audio_root t item = Ok r ->
  filename r = strip_audio_prefix f ->
  scene r = column_cell meta_df "scene_label" i /\
  audio_identifier r = column_cell meta_df "identifier" i /\
  audio_source_label r = column_cell meta_df "source_label" i.
Proof.
  intros Hbuild Hfn Hi Hitem Hname.
  destruct (lookup_get_row _ _ Hbuild Hfn Hi) as [m [Hm Hcells]].
  apply process_item_ok_inv in Hitem.
  destruct Hitem as [b [_ [_ [Hf [_ [Hs [Hid Hsrc]]]]]]].
  rewrite Hname in Hf. subst b.
  unfold metadata_for in Hs, Hid, Hsrc. rewrite Hm in Hs, Hid, Hsrc.
  rewrite Hs, Hid, Hsrc, !Hcells by discriminate.
  repeat split.
Qed.

Lemma record_takes_the_cells_of_its_row_witness :
  scene (record_of "root" [(Some "z9.wav", row_at wider_meta 0);
                           (Some "a1.wav", row_at wider_meta 1)]
           "somepath/a1.wav" [])
    = column_cell wider_meta "scene_label" 1 /\
  audio_identifier (record_of "root" [(Some "z9.wav", row_at wider_meta 0);
                                      (Some "a1.wav", row_at wider_meta 1)]
                      "somepath/a1.wav" [])
    = column_cell wider_meta "identifier" 1 /\
  audio_source_label (record_of "root" [(Some "z9.wav", row_at wider_meta 0);
                                        (Some "a1.wav", row_at wider_meta 1)]
                        "somepath/a1.wav" [])
    = column_cell wider_meta "source_label" 1.
Proof.
  apply (@record_takes_the_cells_of_its_row "root" wider_meta
           [(Some "z9.wav", row_at wider_meta 0);
            (Some "a1.wav", row_at wider_meta 1)]
           [Some "audio/z9.wav"; Some "audio/a1.wav"] 1 "audio/a1.wav"
           (group "somepath/a1.wav" []));
    reflexivity.
Defined.

Lemma lookup_get_filter (keep : option string -> bool) (t : lookup_table)
    (b : string) :
  keep (Some b) = true ->
  lookup_get (filter (fun kr => keep (fst kr)) t) b = lookup_get t b.
Proof.
  intros Hb. induction t as [|[k r] rest IH]; simpl; [reflexivity|].
  destruct (keep k) eqn:Hk; simpl.
  - rewrite IH. reflexivity.
  - destruct (key_eqb k (Some b)) eqn:E; [|exact IH].
    apply key_eqb_eq in E. subst k. rewrite Hb in Hk. discriminate Hk.
Qed.

Lemma group_basename_joinable (item : value) (b : string) :
  group_basename item = Ok b -> joinable (Some b) = true.
Proof.
  unfold group_basename. intros H.
  apply bind_ok in H. destruct H as [fnv [_ H]].
  apply bind_ok in H. destruct H as [fn [_ H]].
  injection H as <-. simpl. apply Nat.eqb_eq.
  destruct (name_component fn) as [-> | [_ H0]]; [reflexivity | exact H0].
Qed.

(** X6. Metadata rows whose basename still holds a separator (such as
    [audio/sub/a.wav] or [clips/a.wav]) or whose filename is missing are
    never joined: the loop gives the same outcome with those entries
    removed from the lookup. *)
Theorem unjoinable_rows_are_ignored (audio_root : string) (t : lookup_table)
    (items : list value) (rows : list Row) :
  join_loop audio_root t items rows =
  join_loop audio_root (filter (fun kr => joinable (fst kr)) t) items rows.
Proof.
  rewrite !join_loop_mapM.
  rewrite (@mapM_ext_in _ _ (process_item audio_root t)
             (process_item audio_root
                (filter (fun kr => joinable (fst kr)) t)) items);
    [reflexivity|].
  intros item _. apply process_item_lookup_ext. intros b Hb.
  symmetry. apply lookup_get_filter.
  eapply group_basename_joinable. exact Hb.
Qed.

(** ** Groups that fail *)

Lemma mapM_first_error {A B : Type} (f : A -> result B) (good rest : list A)
    (bad : A) (e : exn) :
  (forall x, In x good -> exists y, f x = Ok y) ->
  f bad = Err e ->
  mapM f (good ++ bad :: rest) = Err e.
Proof.
  intros Hgood Hbad. induction good as [|x good IH]; simpl.
  - rewrite Hbad. reflexivity.
  - destruct (Hgood x (or_introl eq_refl)) as [y Hy]. rewrite Hy. simpl.
    rewrite IH; [reflexivity|]. intros z Hz. apply Hgood. right. exact Hz.
Qed.

(** X7. The run raises what the first failing group raises: when the
    lookup is built and the groups before some group all yield a record,
    an exception of that group is the outcome of the run, whatever the
    groups after it are. *)
Theorem first_failing_group_aborts (audio_root : string)
    (meta_df : DataFrame) (t : lookup_table) (doc : value)
    (good rest : list value) (bad : value) (e : exn) :
  build_lookup meta_df = Ok t ->
  py_getitem doc "files" = Ok (VList (good ++ bad :: rest)) ->
  (forall g, In g good -> exists r, process_item audio_root t g = Ok r) ->
  process_item audio_root t bad = Err e ->
  convert_macs_to_hf audio_root (Ok meta_df) (Ok doc) = Err e.
Proof.
  intros Hbuild Hfiles Hgood Hbad.
  unfold convert_macs_to_hf. simpl. rewrite Hbuild. simpl.
  rewrite Hfiles. simpl. rewrite join_loop_mapM.
  rewrite (mapM_first_error _ good rest bad Hgood Hbad). reflexivity.
Qed.

Lemma first_failing_group_aborts_witness :
  convert_macs_to_hf "root" (Ok scenario_meta)
    (Ok (document [group "somepath/a1.wav" [];
                   VDict [(VStr "annotations", VList [])];
                   VInt 7])) = Err KeyError.
Proof.
  apply (@first_failing_group_aborts "root" scenario_meta
           [(Some "a1.wav", row_at scenario_meta 0)]
           (document [group "somepath/a1.wav" [];
                      VDict [(VStr "annotations", VList [])];
                      VInt 7])
           [group "somepath/a1.wav" []] [VInt 7]
           (VDict [(VStr "annotations", VList [])]) KeyError).
  - reflexivity.
  - reflexivity.
  - intros g [<-|[]]. eexists. reflexivity.
  - reflexivity.
Defined.

(** ** The delimiter chosen for a first line without quotes *)

Lemma semicolon_in_ascii7 : In semicolon ascii7.
Proof.
  unfold ascii7. apply in_map_iff. exists 59. split; [reflexivity|].
  apply in_seq. lia.
Qed.

(** Without comma and tab among the candidates, the semicolon wins. *)
Lemma pick_semicolon (delims : list (ascii * nat)) (n : nat) :
  In (semicolon, n) delims ->
  (forall m, ~ In (comma, m) delims) ->
  (forall m, ~ In (tab, m) delims) ->
  match delims with
  | [] => None
  | [(d, _)] => Some d
  | _ =>
      match find (fun d => mem d (map fst delims)) preferred with
      | Some d => Some d
      | None => dominant delims
      end
  end = Some semicolon.
Proof.
  intros Hin Hnoc Hnot. pose proof (mem_fst _ _ _ Hin) as Hmem.
  assert (Hcomma : mem comma (map fst delims) = false).
  { destruct (mem comma (map fst delims)) eqn:E; [|reflexivity].
    apply mem_fst_inv in E. destruct E as [m Hm]. destruct (Hnoc m Hm). }
  assert (Htab : mem tab (map fst delims) = false).
  { destruct (mem tab (map fst delims)) eqn:E; [|reflexivity].
    apply mem_fst_inv in E. destruct E as [m Hm]. destruct (Hnot m Hm). }
  revert Hmem Hcomma Htab. generalize (map fst delims) as ks.
  intros ks Hmem Hcomma Htab.
  destruct delims as [|[d m] [|p rest]].
  - contradiction.
  - destruct Hin as [Heq|[]]. injection Heq as -> _. reflexivity.
  - unfold preferred. cbn [find]. rewrite Hcomma, Htab, Hmem. reflexivity.
Qed.

Lemma candidates_cases (c : ascii) :
  mem c [comma; tab; semicolon] = true ->
  c = comma \/ c = tab \/ c = semicolon.
Proof.
  unfold mem. cbn [existsb]. rewrite !orb_true_iff, !Ascii.eqb_eq.
  intros [H | [H | [H | H]]]; auto. discriminate H.
Qed.

Lemma line_delims_none (line : string) :
  count_char comma line = 0 -> count_char tab line = 0 ->
  count_char semicolon line = 0 ->
  line_delims line [comma; tab; semicolon] = [].
Proof.
  intros Hc Ht Hs.
  destruct (line_delims line [comma; tab; semicolon]) as [|[c n] rest] eqn:E;
    [reflexivity|].
  assert (Hin : In (c, n) (line_delims line [comma; tab; semicolon])).
  { rewrite E. left. reflexivity. }
  apply line_delims_In in Hin. destruct Hin as [_ [-> [Hpos Hmem]]].
  apply candidates_cases in Hmem. destruct Hmem as [-> | [-> | ->]]; lia.
Qed.

Section SniffedCandidates.

Variable quote_regexps : string -> list ascii -> option ascii.
Variable chunked_guess : list string -> list ascii -> option ascii.

Lemma sniff_semicolon (content : string) :
  has_quote (readline content) = false ->
  0 < count_char semicolon (readline content) ->
  count_char comma (readline content) = 0 ->
  count_char tab (readline content) = 0 ->
  sniff quote_regexps chunked_guess (readline content)
        [comma; tab; semicolon] = Ok semicolon.
Proof.
  intros Hq Hpos Hc Ht. unfold sniff, guess_quote_and_delimiter. rewrite Hq.
  destruct (@readline_lines content semicolon) as [body [Hlines Hcount]];
    [discriminate | exact Hpos |].
  unfold guess_delimiter. rewrite Hlines. cbv zeta.
  rewrite (@pick_semicolon _ (count_char semicolon body)); [reflexivity| | |].
  - apply line_delims_In. repeat split.
    + exact semicolon_in_ascii7.
    + rewrite Hcount; [exact Hpos | discriminate].
  - intros m Hm. apply line_delims_In in Hm. destruct Hm as [_ [-> [Hm _]]].
    rewrite Hcount in Hm; [lia | discriminate].
  - intros m Hm. apply line_delims_In in Hm. destruct Hm as [_ [-> [Hm _]]].
    rewrite Hcount in Hm; [lia | discriminate].
Qed.

(** A first line without quotes and without any of the three candidates
    leaves the sniffer without a delimiter. *)
Lemma sniff_nothing (content : string) :
  has_quote (readline content) = false ->
  count_char comma (readline content) = 0 ->
  count_char tab (readline content) = 0 ->
  count_char semicolon (readline content) = 0 ->
  sniff quote_regexps chunked_guess (readline content)
        [comma; tab; semicolon] = Err CsvError.
Proof.
  intros Hq Hc Ht Hs. unfold sniff, guess_quote_and_delimiter. rewrite Hq.
  destruct (readline_split content) as [body [Hsplit Hcount]].
  unfold guess_delimiter.
  assert (Hlines : filter nonempty (split_on newline (readline content)) = [] \/
                   filter nonempty (split_on newline (readline content)) = [body]).
  { destruct Hsplit as [-> | ->]; simpl; destruct (nonempty body); auto. }
  destruct Hlines as [-> | ->]; [reflexivity|]. cbv zeta.
  rewrite line_delims_none; [reflexivity| | |];
    (rewrite Hcount; [assumption | discriminate]).
Qed.

Lemma sniff_first_candidate (content : string) :
  has_quote (readline content) = false ->
  sniff quote_regexps chunked_guess (readline content)
        [comma; tab; semicolon] =
  match first_candidate (readline content) with
  | Some d => Ok d
  | None => Err CsvError
  end.
Proof.
  intros Hq. unfold first_candidate. cbn [find].
  destruct (0 <? count_char comma (readline content))%nat eqn:Ec.
  { apply Nat.ltb_lt in Ec. apply sniff_comma; assumption. }
  apply Nat.ltb_ge in Ec.
  destruct (0 <? count_char tab (readline content))%nat eqn:Et.
  { apply Nat.ltb_lt in Et. apply sniff_tab; [assumption | assumption | lia]. }
  apply Nat.ltb_ge in Et.
  destruct (0 <? count_char semicolon (readline content))%nat eqn:Es.
  { apply Nat.ltb_lt in Es. apply sniff_semicolon; [assumption | assumption | lia | lia]. }
  apply Nat.ltb_ge in Es.
  apply sniff_nothing; [assumption | lia | lia | lia].
Qed.

End SniffedCandidates.

(** X8. For a file whose first line holds no quote character,
    [smart_read_csv] parses the file under the first of comma, tab and
    semicolon that occurs in that line, whatever the later lines are; when
    none occurs (a one-column, blank or empty first line) it raises
    [csv.Error] and the file is not parsed. *)
Theorem first_line_decides_the_delimiter
    (quote_regexps : string -> list ascii -> option ascii)
    (chunked_guess : list string -> list ascii -> option ascii)
    (read_csv : string -> ascii -> result DataFrame) (content : string) :
  has_quote (readline content) = false ->
  smart_read_csv quote_regexps chunked_guess read_csv (Ok content) =
  match first_candidate (readline content) with
  | Some d => read_csv content d
  | None => Err CsvError
  end.
Proof.
  intros Hq. unfold smart_read_csv. cbn [bind].
  rewrite (sniff_first_candidate quote_regexps chunked_guess content Hq).
  destruct (first_candidate (readline content)); reflexivity.
Qed.

Lemma first_line_decides_the_delimiter_witness :
  smart_read_csv (fun _ _ => None) (fun _ _ => None) simple_reader
    (Ok (render semicolon plain_table)) =
  match first_candidate (readline (render semicolon plain_table)) with
  | Some d => simple_reader (render semicolon plain_table) d
  | None => Err CsvError
  end.
Proof.
  apply (@first_line_decides_the_delimiter (fun _ _ => None) (fun _ _ => None)
           simple_reader (render semicolon plain_table)).
  reflexivity.
Defined.

(** ** Saving and publishing *)

Section SinkProperties.

Variable Dataset : Type.
Variable from_pandas : list Row -> result Dataset.
Variable sample : Dataset -> result unit.
Variable perform : action -> result unit.

(** Attempting a list of actions logs them all when none raises, and
    otherwise logs them up to the first that raises, included. *)
Lemma attempt_cases (acts log log' : list action) (res : result unit) :
  attempt perform acts log = (log', res) ->
  (res = Ok tt /\ log' = (log ++ acts)%list /\
   Forall (fun a => perform a = Ok tt) acts) \/
  (exists pre a post e,
     acts = (pre ++ a :: post)%list /\ log' = (log ++ pre ++ [a])%list /\
     Forall (fun a => perform a = Ok tt) pre /\
     perform a = Err e /\ res = Err e).
Proof.
  revert log. induction acts as [|a acts IH]; intros log H.
  - injection H as <- <-. left. rewrite app_nil_r. repeat split. constructor.
  - cbn [attempt] in H. unfold io_bind, call in H.
    destruct (perform a) as [[]|e] eqn:Ha.
    + destruct (IH _ H) as [[-> [-> Hall]] | [pre [b [post [e [-> [-> [Hpre [Hb ->]]]]]]]]].
      * left. rewrite <- app_assoc. repeat split. constructor; assumption.
      * right. exists (a :: pre), b, post, e. rewrite <- app_assoc.
        repeat split; try assumption. constructor; assumption.
    + injection H as <- <-. right. exists [], a, acts, e.
      repeat split; try assumption. constructor.
Qed.

(** Steps 5 and 6 attempt the actions of the plan, in order. *)
Lemma publish_attempt (ds_all : Dataset) (out_dir push_to_hub : option string)
    (private : bool) (hf_token : option string) (log : list action) :
  publish perform ds_all out_dir push_to_hub private hf_token log =
  match attempt perform (plan out_dir push_to_hub private hf_token) log with
  | (log', Ok _) => (log', Ok ds_all)
  | (log', Err e) => (log', Err e)
  end.
Proof.
  unfold publish, plan, save_plan, push_plan, login_plan.
  destruct out_dir as [s|]; [destruct (nonempty s)|];
    (destruct push_to_hub as [repo|]; [destruct (nonempty repo)|]);
    try (destruct hf_token as [t|]; [destruct (nonempty t)|]);
    cbn [app attempt]; unfold io_bind, call, io_ret;
    repeat match goal with
           | |- context [perform ?a] => destruct (perform a) as [[]|]
           end;
    reflexivity.
Qed.

Lemma convert_and_publish_cases (w : World)
    (audio_root meta_csv yaml_file : string)
    (out_dir push_to_hub : option string) (private : bool)
    (hf_token : option string) (log : list action) (res : result Dataset) :
  convert_and_publish from_pandas sample perform w audio_root meta_csv
    yaml_file out_dir push_to_hub private hf_token [] = (log, res) ->
  (log = [] /\ exists e, res = Err e) \/
  (exists rows ds,
     convert_macs_to_hf audio_root (read_meta w (Path meta_csv))
       (load_yaml w (Path yaml_file)) = Ok rows /\
     from_pandas rows = Ok ds /\
     sample ds = Ok tt /\
     ((res = Ok ds /\ log = plan out_dir push_to_hub private hf_token /\
       Forall (fun a => perform a = Ok tt) log) \/
      (exists pre a post e,
         plan out_dir push_to_hub private hf_token = (pre ++ a :: post)%list /\
         log = (pre ++ [a])%list /\
         Forall (fun a => perform a = Ok tt) pre /\
         perform a = Err e /\ res = Err e))).
Proof.
  unfold convert_and_publish, io_bind, lift. intros H.
  destruct (convert_macs_to_hf audio_root (read_meta w (Path meta_csv))
              (load_yaml w (Path yaml_file))) as [rows|e];
    [|injection H as <- <-; left; split; [reflexivity | exists e; reflexivity]].
  destruct (from_pandas rows) as [ds|e] eqn:Hds;
    [|injection H as <- <-; left; split; [reflexivity | exists e; reflexivity]].
  destruct (sample ds) as [[]|e] eqn:Hsample;
    [|injection H as <- <-; left; split; [reflexivity | exists e; reflexivity]].
  right. exists rows, ds. repeat split; try assumption.
  rewrite publish_attempt in H.
  destruct (attempt perform (plan out_dir push_to_hub private hf_token) [])
    as [log' r] eqn:Hattempt.
  destruct (attempt_cases _ _ Hattempt)
    as [[-> [-> Hall]] | [pre [a [post [e [Hplan [-> [Hpre [Ha ->]]]]]]]]].
  - injection H as <- <-. left. repeat split. exact Hall.
  - injection H as <- <-. right. exists pre, a, post, e. repeat split; assumption.
Qed.

(** X9. Nothing is saved, logged in or pushed unless the dataset was
    built: when the run attempts any action on the outside world, the
    join returned its rows, the dataset was made from them and its first
    sample was read. A run that raises before that leaves no partial
    output. *)
Theorem sinks_wait_for_the_dataset (w : World)
    (audio_root meta_csv yaml_file : string)
    (out_dir push_to_hub : option string) (private : bool)
    (hf_token : option string) (log : list action) (res : result Dataset) :
  convert_and_publish from_pandas sample perform w audio_root meta_csv
    yaml_file out_dir push_to_hub private hf_token [] = (log, res) ->
  log <> [] ->
  exists rows ds,
    convert_macs_to_hf audio_root (read_meta w (Path meta_csv))
      (load_yaml w (Path yaml_file)) = Ok rows /\
    from_pandas rows = Ok ds /\
    sample ds = Ok tt.
Proof.
  intros H Hlog.
  destruct (convert_and_publish_cases _ _ _ _ _ _ _ _ H)
    as [[Hnil _] | [rows [ds [Hrows [Hds [Hsample _]]]]]].
  - contradiction.
  - exists rows, ds. repeat split; assumption.
Qed.

(** X10. A run that returns the dataset has attempted exactly the actions
    of the plan, in order, and none raised: the directory is made and the
    dataset saved when [out_dir] is a non-empty string; then, when
    [push_to_hub] is one, the login (only with a non-empty token) and the
    push, which gets the [private] flag. *)
Theorem publishing_follows_the_plan (w : World)
    (audio_root meta_csv yaml_file : string)
    (out_dir push_to_hub : option string) (private : bool)
    (hf_token : option string) (log : list action) (ds : Dataset) :
  convert_and_publish from_pandas sample perform w audio_root meta_csv
    yaml_file out_dir push_to_hub private hf_token [] = (log, Ok ds) ->
  log = plan out_dir push_to_hub private hf_token /\
  Forall (fun a => perform a = Ok tt) log.
Proof.
  intros H.
  destruct (convert_and_publish_cases _ _ _ _ _ _ _ _ H)
    as [[_ [e He]] | [rows [ds' [_ [_ [_ Hcases]]]]]].
  - discriminate He.
  - destruct Hcases as [[_ [Hlog Hall]] | [pre [a [post [e [_ [_ [_ [_ He]]]]]]]]].
    + split; assumption.
    + discriminate He.
Qed.

(** X11. An action that raises ends the run with its exception: the
    actions of the plan before it were attempted and did not raise, and
    none of the plan after it is attempted (a failed save is followed by
    no login and no push). *)
Theorem failed_action_stops_the_rest (w : World)
    (audio_root meta_csv yaml_file : string)
    (out_dir push_to_hub : option string) (private : bool)
    (hf_token : option string) (log : list action) (e : exn) :
  convert_and_publish from_pandas sample perform w audio_root meta_csv
    yaml_file out_dir push_to_hub private hf_token [] = (log, Err e) ->
  log <> [] ->
  exists pre a post,
    plan out_dir push_to_hub private hf_token = (pre ++ a :: post)%list /\
    log = (pre ++ [a])%list /\
    Forall (fun a => perform a = Ok tt) pre /\
    perform a = Err e.
Proof.
  intros H Hlog.
  destruct (convert_and_publish_cases _ _ _ _ _ _ _ _ H)
    as [[Hnil _] | [rows [ds [_ [_ [_ Hcases]]]]]].
  - contradiction.
  - destruct Hcases as [[He _] | [pre [a [post [e' [Hplan [Hl [Hpre [Ha He]]]]]]]]].
    + discriminate He.
    + injection He as ->. exists pre, a, post. repeat split; assumption.
Qed.

End SinkProperties.

Lemma sinks_wait_for_the_dataset_witness :
  exists rows ds,
    convert_macs_to_hf "MACS_raw/audio"
      (read_meta sample_world (Path "meta.csv"))
      (load_yaml sample_world (Path "MACS.yaml")) = Ok rows /\
    rows_dataset rows = Ok ds /\
    first_row ds = Ok tt.
Proof.
  apply (@sinks_wait_for_the_dataset _ rows_dataset first_row sinks_succeed
           sample_world "MACS_raw/audio" "meta.csv" "MACS.yaml"
           (Some "macs_hf") None false None
           [Mkdir (Path "macs_hf"); SaveToDisk (Path "macs_hf")]
           (Ok [record_of "MACS_raw/audio"
                  [(Some "a1.wav", row_at scenario_meta 0)] "somepath/a1.wav"
                  [annotation "birds chirping" ["nature"] 3]]));
    [reflexivity | discriminate].
Defined.

Lemma publishing_follows_the_plan_witness :
  [Mkdir (Path "macs_hf"); SaveToDisk (Path "macs_hf"); Login "hf_secret";
   PushToHub "username/MACS_captions" true] =
  plan (Some "macs_hf") (Some "username/MACS_captions") true (Some "hf_secret") /\
  Forall (fun a => sinks_succeed a = Ok tt)
    [Mkdir (Path "macs_hf"); SaveToDisk (Path "macs_hf"); Login "hf_secret";
     PushToHub "username/MACS_captions" true].
Proof.
  apply (@publishing_follows_the_plan _ rows_dataset first_row sinks_succeed
           sample_world "MACS_raw/audio" "meta.csv" "MACS.yaml"
           (Some "macs_hf") (Some "username/MACS_captions") true
           (Some "hf_secret")
           [Mkdir (Path "macs_hf"); SaveToDisk (Path "macs_hf");
            Login "hf_secret"; PushToHub "username/MACS_captions" true]
           [record_of "MACS_raw/audio"
              [(Some "a1.wav", row_at scenario_meta 0)] "somepath/a1.wav"
              [annotation "birds chirping" ["nature"] 3]]).
  reflexivity.
Defined.

Lemma failed_action_stops_the_rest_witness :
  exists pre a post,
    plan (Some "macs_hf") (Some "username/MACS_captions") true
      (Some "hf_secret") = (pre ++ a :: post)%list /\
    [Mkdir (Path "macs_hf"); SaveToDisk (Path "macs_hf")] = (pre ++ [a])%list /\
    Forall (fun a => saving_raises a = Ok tt) pre /\
    saving_raises a = Err (Exn "OSError").
Proof.
  apply (@failed_action_stops_the_rest _ rows_dataset first_row saving_raises
           sample_world "MACS_raw/audio" "meta.csv" "MACS.yaml"
           (Some "macs_hf") (Some "username/MACS_captions") true
           (Some "hf_secret")
           [Mkdir (Path "macs_hf"); SaveToDisk (Path "macs_hf")]
           (Exn "OSError"));
    [reflexivity | discriminate].
Defined.

(** ** The command line *)


(** X13. When [main] completes, its four checks passed and the actions
    attempted are those of the plan for the arguments, none of which
    raised; so the dataset was saved under [--out-dir] unless that is the
    empty string, and a run with [--private] pushed to the repository
    with the private flag set. *)
Theorem main_completes_after_the_plan (Dataset : Type)
    (from_pandas : list Row -> result Dataset)
    (sample : Dataset -> result unit) (perform : action -> result unit)
    (w : World) (args : Namespace) (log : list action) :
  main from_pandas sample perform w (Parsed args) = (log, Completed) ->
  valid_arguments w args = true /\
  log = plan (Some (arg_out_dir args)) (arg_push_to_hub args)
          (arg_private args) (arg_hf_token args) /\
  Forall (fun a => perform a = Ok tt) log /\
  (nonempty (arg_out_dir args) = true ->
   In (SaveToDisk (Path (arg_out_dir args))) log) /\
  (arg_private args = true ->
   exists repo, arg_push_to_hub args = Some repo /\
                In (PushToHub repo true) log).
Proof.
  unfold main, valid_arguments. intros H.
  destruct (arg_private args && negb (truthy (arg_push_to_hub args))) eqn:E1;
    [discriminate H|].
  destruct (path_exists w (Path (arg_audio_root args))) as [[|]|e1];
    [|discriminate H|discriminate H].
  destruct (path_exists w (Path (arg_meta_csv args))) as [[|]|e2];
    [|discriminate H|discriminate H].
  destruct (path_exists w (Path (arg_yaml_file args))) as [[|]|e3];
    [|discriminate H|discriminate H].
  destruct (convert_and_publish from_pandas sample perform w
              (arg_audio_root args) (arg_meta_csv args) (arg_yaml_file args)
              (Some (arg_out_dir args)) (arg_push_to_hub args)
              (arg_private args) (arg_hf_token args) []) as [log' [ds|e]] eqn:Hrun;
    [|discriminate H].
  injection H as <-.
  destruct (convert_and_publish_cases _ _ _ _ _ _ _ _ _ _ _ Hrun)
    as [[_ [e He]] | [rows [ds' [_ [_ [_ Hcases]]]]]]; [discriminate He|].
  destruct Hcases as [[_ [Hlog Hall]] | [pre [a [post [e [_ [_ [_ [_ He]]]]]]]]];
    [|discriminate He].
  split; [reflexivity|]. split; [exact Hlog|]. split; [exact Hall|].
  rewrite Hlog. unfold plan, save_plan, push_plan. split.
  - intros Hne. rewrite Hne. apply in_or_app. left. right. left. reflexivity.
  - intros Hp. rewrite Hp in E1. cbn [andb] in E1.
    apply negb_false_iff in E1. unfold truthy in E1.
    destruct (arg_push_to_hub args) as [repo|]; [|discriminate E1].
    exists repo. split; [reflexivity|]. rewrite E1, Hp.
    apply in_or_app. right. apply in_or_app. right. left. reflexivity.
Qed.

Lemma main_completes_after_the_plan_witness :
  valid_arguments sample_world sample_args = true /\
  [Mkdir (Path "macs_hf"); SaveToDisk (Path "macs_hf");
   PushToHub "username/MACS_captions" true] =
  plan (Some (arg_out_dir sample_args)) (arg_push_to_hub sample_args)
    (arg_private sample_args) (arg_hf_token sample_args) /\
  Forall (fun a => sinks_succeed a = Ok tt)
    [Mkdir (Path "macs_hf"); SaveToDisk (Path "macs_hf");
     PushToHub "username/MACS_captions" true] /\
  (nonempty (arg_out_dir sample_args) = true ->
   In (SaveToDisk (Path (arg_out_dir sample_args)))
      [Mkdir (Path "macs_hf"); SaveToDisk (Path "macs_hf");
       PushToHub "username/MACS_captions" true]) /\
  (arg_private sample_args = true ->
   exists repo, arg_push_to_hub sample_args = Some repo /\
                In (PushToHub repo true)
                   [Mkdir (Path "macs_hf"); SaveToDisk (Path "macs_hf");
                    PushToHub "username/MACS_captions" true]).
Proof.
  apply (@main_completes_after_the_plan _ rows_dataset first_row sinks_succeed
           sample_world sample_args
           [Mkdir (Path "macs_hf"); SaveToDisk (Path "macs_hf");
            PushToHub "username/MACS_captions" true]).
  reflexivity.
Defined.

(** ** The basename as join key *)

Lemma split_on_cons (sep : ascii) (s : string) :
  exists w ws, split_on sep s = w :: ws.
Proof.
  induction s as [|c s [w [ws IH]]]; [exists "", []; reflexivity|].
  cbn [split_on]. destruct (Ascii.eqb c sep).
  - eexists _, _. reflexivity.
  - rewrite IH. eexists _, _. reflexivity.
Qed.

Lemma split_on_app (sep : ascii) (d b : string) :
  split_on sep (d ++ String sep b) = (split_on sep d ++ split_on sep b)%list.
Proof.
  induction d as [|c d IH].
  - cbn [append split_on]. rewrite Ascii.eqb_refl. reflexivity.
  - cbn [append split_on]. rewrite IH.
    destruct (Ascii.eqb c sep); [reflexivity|].
    destruct (split_on_cons sep d) as [w [ws ->]]. reflexivity.
Qed.

(** X14. Both sides reduce a name to the same key: for a name [b] that is
    one path component, the annotation side gives [b] for [b] under any
    directory, and the metadata side gives [b] for [audio/b]. *)
Theorem both_sides_reduce_to_the_basename (d b : string) :
  is_component b = true ->
  count_char slash b = 0 ->
  name (Path (d ++ "/" ++ b)) = b /\
  strip_audio_prefix ("audio/" ++ b) = b.
Proof.
  intros Hc H0. split.
  - unfold name, Path. cbn [parts].
    change (d ++ "/" ++ b) with (d ++ String slash b).
    rewrite split_on_app, (split_on_whole slash b H0), filter_app.
    cbn [filter]. rewrite Hc. apply last_last.
  - unfold strip_audio_prefix. simpl.
    destruct b as [|c b]; simpl; [reflexivity|].
    rewrite substring_all. reflexivity.
Qed.

Lemma both_sides_reduce_to_the_basename_witness :
  name (Path ("somepath" ++ "/" ++ "a1.wav")) = "a1.wav" /\
  strip_audio_prefix ("audio/" ++ "a1.wav") = "a1.wav".
Proof.
  apply (@both_sides_reduce_to_the_basename "somepath" "a1.wav"); reflexivity.
Defined.

(** X15. Taking the basename of a basename changes nothing: the filename
    of a record, used again as a group filename, gives the same
    filename. *)
Theorem basename_idempotent (s : string) :
  name (Path (name (Path s))) = name (Path s).
Proof.
  destruct (name_component s) as [-> | [Hc H0]]; [reflexivity|].
  rewrite (Path_of_component _ Hc H0). reflexivity.
Qed.

(** ** What the records depend on *)

Lemma Forall2_In_r {A B : Type} (R : A -> B -> Prop) (l : list A)
    (l' : list B) (y : B) :
  Forall2 R l l' -> In y l' -> exists x, In x l /\ R x y.
Proof.
  intros H. induction H as [|a b l l' Hab _ IH]; intros Hin.
  - contradiction.
  - destruct Hin as [<-|Hin].
    + exists a. split; [left; reflexivity | exact Hab].
    + destruct (IH Hin) as [x [Hx HR]]. exists x. split; [right|]; assumption.
Qed.

(** X16. Across the output the filename determines the audio path and the
    three metadata fields: two records of one run with the same filename
    (the join keeps repeated basenames) agree on audio, scene,
    audio_identifier and audio_source_label. *)
Theorem equal_filenames_equal_metadata (audio_root : string)
    (meta_read : result DataFrame) (yaml_read : result value)
    (rows : list Row) (r1 r2 : Row) :
  convert_macs_to_hf audio_root meta_read yaml_read = Ok rows ->
  In r1 rows -> In r2 rows ->
  filename r1 = filename r2 ->
  audio r1 = audio r2 /\
  scene r1 = scene r2 /\
  audio_identifier r1 = audio_identifier r2 /\
  audio_source_label r1 = audio_source_label r2.
Proof.
  intros H H1 H2 Hname. apply convert_ok_inv in H.
  destruct H as [meta_df [t [items [_ [_ [_ Hrows]]]]]].
  destruct (@Forall2_In_r _ _ _ _ _ r1 Hrows H1) as [i1 [_ Hr1]].
  destruct (@Forall2_In_r _ _ _ _ _ r2 Hrows H2) as [i2 [_ Hr2]].
  apply process_item_ok_inv in Hr1, Hr2.
  destruct Hr1 as [b1 [_ [_ [Hf1 [Ha1 [Hs1 [Hi1 Hl1]]]]]]].
  destruct Hr2 as [b2 [_ [_ [Hf2 [Ha2 [Hs2 [Hi2 Hl2]]]]]]].
  assert (Hb : b1 = b2) by congruence. subst b2.
  repeat split; congruence.
Qed.

Lemma equal_filenames_equal_metadata_witness :
  audio (record_of "root" [] "left/x.wav" [annotation "rain" ["weather"] 1]) =
  audio (record_of "root" [] "right/x.wav" [annotation "wind" ["weather"] 2]) /\
  scene (record_of "root" [] "left/x.wav" [annotation "rain" ["weather"] 1]) =
  scene (record_of "root" [] "right/x.wav" [annotation "wind" ["weather"] 2]) /\
  audio_identifier
    (record_of "root" [] "left/x.wav" [annotation "rain" ["weather"] 1]) =
  audio_identifier
    (record_of "root" [] "right/x.wav" [annotation "wind" ["weather"] 2]) /\
  audio_source_label
    (record_of "root" [] "left/x.wav" [annotation "rain" ["weather"] 1]) =
  audio_source_label
    (record_of "root" [] "right/x.wav" [annotation "wind" ["weather"] 2]).
Proof.
  apply (@equal_filenames_equal_metadata "root" (Ok scenario_meta)
           (Ok twin_doc)
           [record_of "root" [] "left/x.wav" [annotation "rain" ["weather"] 1];
            record_of "root" [] "right/x.wav" [annotation "wind" ["weather"] 2]]).
  - reflexivity.
  - left. reflexivity.
  - right. left. reflexivity.
  - reflexivity.
Defined.

Lemma lookup_get_rows (f g : nat -> row_dict) (keys : list (option string))
    (s : nat) (b : string) :
  (lookup_get (map (fun ik => (snd ik, f (fst ik)))
                   (combine (seq s (List.length keys)) keys)) b = None /\
   lookup_get (map (fun ik => (snd ik, g (fst ik)))
                   (combine (seq s (List.length keys)) keys)) b = None) \/
  (exists i,
     lookup_get (map (fun ik => (snd ik, f (fst ik)))
                     (combine (seq s (List.length keys)) keys)) b = Some (f i) /\
     lookup_get (map (fun ik => (snd ik, g (fst ik)))
                     (combine (seq s (List.length keys)) keys)) b = Some (g i)).
Proof.
  revert s. induction keys as [|k rest IH]; intros s.
  - left. split; reflexivity.
  - cbn [List.length seq combine map lookup_get fst snd].
    destruct (key_eqb k (Some b)).
    + right. exists s. split; reflexivity.
    + apply IH.
Qed.

(** The lookup of a table is decided by its [filename] column. *)
Lemma build_lookup_rel (df1 df2 : DataFrame) :
  assoc "filename" df1 = assoc "filename" df2 ->
  (exists e, build_lookup df1 = Err e /\ build_lookup df2 = Err e) \/
  (exists keys,
     build_lookup df1 =
       Ok (map (fun ik =>
                  (snd ik,
                   row_at (df_drop (df_setitem df1 "basename" (ObjectCol keys))
                                   "basename") (fst ik)))
               (combine (seq 0 (List.length keys)) keys)) /\
     build_lookup df2 =
       Ok (map (fun ik =>
                  (snd ik,
                   row_at (df_drop (df_setitem df2 "basename" (ObjectCol keys))
                                   "basename") (fst ik)))
               (combine (seq 0 (List.length keys)) keys))).
Proof.
  intros H. unfold build_lookup, df_getitem. rewrite H.
  destruct (assoc "filename" df2) as [[l| | |]|]; simpl;
    try (left; eexists; split; reflexivity).
  unfold to_dict_index.
  destruct (is_unique (map (option_map strip_audio_prefix) l)).
  - right. eexists. split; reflexivity.
  - left. eexists. split; reflexivity.
Qed.

(** The record of a group reads the lookup only through the three
    metadata entries of the row of its basename. *)
Lemma process_item_fields_ext (audio_root : string) (t1 t2 : lookup_table)
    (item : value) :
  (forall b c,
     group_basename item = Ok b ->
     c = "scene_label" \/ c = "identifier" \/ c = "source_label" ->
     row_get (metadata_for t1 b) c = row_get (metadata_for t2 b) c) ->
  process_item audio_root t1 item = process_item audio_root t2 item.
Proof.
  unfold process_item, group_basename. intros H.
  destruct (py_getitem item "filename") as [[| | | |fn| |]|e]; simpl in *;
    try reflexivity.
  pose proof (H _ "scene_label" eq_refl (or_introl eq_refl)) as E1.
  pose proof (H _ "identifier" eq_refl (or_intror (or_introl eq_refl))) as E2.
  pose proof (H _ "source_label" eq_refl (or_intror (or_intror eq_refl))) as E3.
  unfold metadata_for in E1, E2, E3.
  destruct (py_getitem item "annotations") as [anns|e]; simpl; [|reflexivity].
  destruct (comprehension "sentence" anns); simpl; [|reflexivity].
  destruct (comprehension "tags" anns); simpl; [|reflexivity].
  destruct (comprehension "annotator_id" anns); simpl; [|reflexivity].
  rewrite E1, E2, E3. reflexivity.
Qed.

(** X17. Of the metadata table the run reads four columns only: two tables
    with the same [filename], [scene_label], [identifier] and
    [source_label] columns (present or absent alike) give the same
    outcome, whatever other columns they have. *)
Theorem only_four_columns_matter (audio_root : string)
    (df1 df2 : DataFrame) (yaml_read : result value) :
  (forall col,
     In col ["filename"; "scene_label"; "identifier"; "source_label"] ->
     assoc col df1 = assoc col df2) ->
  convert_macs_to_hf audio_root (Ok df1) yaml_read =
  convert_macs_to_hf audio_root (Ok df2) yaml_read.
Proof.
  intros H. unfold convert_macs_to_hf. simpl.
  destruct (@build_lookup_rel df1 df2)
    as [[e [-> ->]] | [keys [-> ->]]]; [apply H; simpl; auto | reflexivity |].
  simpl.
  destruct yaml_read as [doc|e]; simpl; [|reflexivity].
  destruct (py_getitem doc "files") as [yaml_items|e]; simpl; [|reflexivity].
  destruct (py_len yaml_items) as [n|e]; simpl; [|reflexivity].
  destruct (py_iter yaml_items) as [items|e]; simpl; [|reflexivity].
  rewrite !join_loop_mapM.
  match goal with
  | |- (_ <- mapM (process_item _ ?t1) _ ;; _) =
       (_ <- mapM (process_item _ ?t2) _ ;; _) =>
      rewrite (@mapM_ext_in _ _ (process_item audio_root t1)
                 (process_item audio_root t2) items); [reflexivity|]
  end.
  intros item _. apply process_item_fields_ext. intros b c _ Hc.
  unfold metadata_for.
  destruct (lookup_get_rows
              (row_at (df_drop (df_setitem df1 "basename" (ObjectCol keys))
                               "basename"))
              (row_at (df_drop (df_setitem df2 "basename" (ObjectCol keys))
                               "basename")) keys 0 b)
    as [[-> ->] | [i [-> ->]]]; [reflexivity|].
  rewrite !row_get_row_at. unfold column_cell.
  assert (Hcol : c <> "basename").
  { destruct Hc as [-> | [-> | ->]]; discriminate. }
  rewrite !assoc_drop_other, !assoc_setitem_other by exact Hcol.
  rewrite (H c); [reflexivity|].
  destruct Hc as [-> | [-> | ->]]; simpl; auto.
Qed.

Lemma only_four_columns_matter_witness :
  convert_macs_to_hf "root" (Ok scenario_meta) (Ok scenario_doc) =
  convert_macs_to_hf "root"
    (Ok (("license", ObjectCol [Some "CC-BY"]) :: scenario_meta))
    (Ok scenario_doc).
Proof.
  apply (@only_four_columns_matter "root" scenario_meta
           (("license", ObjectCol [Some "CC-BY"]) :: scenario_meta)
           (Ok scenario_doc)).
  intros col [<- | [<- | [<- | [<- | []]]]]; reflexivity.
Defined.

(** ** Orphan rows, on the tables themselves *)

Lemma keep_nil {A : Type} (mask : list bool) : keep mask (@nil A) = [].
Proof. destruct mask; reflexivity. Qed.

Lemma keep_map {A B : Type} (f : A -> B) (mask : list bool) (l : list A) :
  keep mask (map f l) = map f (keep mask l).
Proof.
  revert l. induction mask as [|m ms IH]; intros l; [reflexivity|].
  destruct l as [|x xs]; [reflexivity|]. simpl.
  destruct m; simpl; rewrite IH; reflexivity.
Qed.

Lemma keep_In {A : Type} (mask : list bool) (l : list A) (x : A) :
  In x (keep mask l) -> In x l.
Proof.
  revert l. induction mask as [|m ms IH]; intros l H; [contradiction|].
  destruct l as [|y ys]; [contradiction|]. simpl in H.
  destruct m.
  - destruct H as [<-|H]; [left; reflexivity | right; apply IH; exact H].
  - right. apply IH. exact H.
Qed.

Lemma keep_NoDup {A : Type} (mask : list bool) (l : list A) :
  NoDup l -> NoDup (keep mask l).
Proof.
  revert l. induction mask as [|m ms IH]; intros l H; [constructor|].
  destruct l as [|y ys]; [constructor|].
  inversion H as [|? ? Hy Hys]; subst. simpl. destruct m.
  - constructor; [|apply IH; exact Hys].
    intros Hin. apply Hy. eapply keep_In. exact Hin.
  - apply IH. exact Hys.
Qed.

Lemma keep_length {A : Type} (mask : list bool) (l : list A) :
  List.length l = List.length mask ->
  List.length (keep mask l) = List.length (filter (fun b => b) mask).
Proof.
  revert l. induction mask as [|m ms IH]; intros l H; [reflexivity|].
  destruct l as [|x xs]; [discriminate H|]. simpl in H. simpl.
  destruct m; simpl; rewrite IH by lia; reflexivity.
Qed.

Lemma cell_at_tail (s : Series) (i : nat) :
  cell_at s (S i) = cell_at (series_tail s) i.
Proof.
  destruct s as [l|l|l|l]; destruct l; simpl; try reflexivity;
    destruct i; reflexivity.
Qed.

Lemma row_at_tail (df : DataFrame) (i : nat) :
  row_at df (S i) = row_at (df_tail df) i.
Proof.
  unfold row_at, df_tail. rewrite map_map. apply map_ext.
  intros [c s]. simpl. rewrite cell_at_tail. reflexivity.
Qed.

Lemma table_rows_S (df : DataFrame) (n : nat) :
  table_rows df (S n) = row_at df 0 :: table_rows (df_tail df) n.
Proof.
  unfold table_rows. cbn [seq map]. f_equal.
  rewrite <- seq_shift, map_map. apply map_ext. intros i. apply row_at_tail.
Qed.

Lemma select_rows_true (ms : list bool) (df : DataFrame) :
  row_at (select_rows (true :: ms) df) 0 = row_at df 0 /\
  df_tail (select_rows (true :: ms) df) = select_rows ms (df_tail df).
Proof.
  unfold row_at, df_tail, select_rows. rewrite !map_map. split.
  - apply map_ext. intros [c s]. simpl.
    destruct s as [l|l|l|l]; destruct l; reflexivity.
  - apply map_ext. intros [c s]. simpl.
    destruct s as [l|l|l|l]; destruct l; simpl; rewrite ?keep_nil; reflexivity.
Qed.

Lemma select_rows_false (ms : list bool) (df : DataFrame) :
  select_rows (false :: ms) df = select_rows ms (df_tail df).
Proof.
  unfold df_tail, select_rows. rewrite map_map. apply map_ext.
  intros [c s]. simpl.
  destruct s as [l|l|l|l]; destruct l; simpl; rewrite ?keep_nil; reflexivity.
Qed.

(** Selecting rows of a table selects its row dicts. *)
Lemma table_rows_select (mask : list bool) (df : DataFrame) :
  table_rows (select_rows mask df) (List.length (filter (fun b => b) mask)) =
  keep mask (table_rows df (List.length mask)).
Proof.
  revert df. induction mask as [|m ms IH]; intros df; [reflexivity|].
  cbn [List.length]. rewrite (table_rows_S df). destruct m; cbn [filter keep].
  - cbn [List.length]. rewrite table_rows_S.
    destruct (select_rows_true ms df) as [-> ->]. rewrite IH. reflexivity.
  - rewrite select_rows_false. apply IH.
Qed.

Lemma to_dict_combine (d : DataFrame) (keys : list (option string))
    (s n : nat) :
  map (fun ik => (snd ik, row_at d (fst ik))) (combine (seq s n) keys) =
  combine keys (map (row_at d) (seq s n)).
Proof.
  revert s n. induction keys as [|k rest IH]; intros s n.
  - destruct n; reflexivity.
  - destruct n as [|n]; [reflexivity|]. cbn [seq combine map fst snd].
    rewrite IH. reflexivity.
Qed.

Lemma restrict_combine (names : list string) (keys : list (option string))
    (rws : list row_dict) :
  restrict names (combine keys rws) =
  combine (keep (map (used_key names) keys) keys)
          (keep (map (used_key names) keys) rws).
Proof.
  unfold restrict. revert rws. induction keys as [|k rest IH]; intros rws.
  - reflexivity.
  - destruct rws as [|r rws].
    + rewrite keep_nil, combine_nil. symmetry. apply combine_nil.
    + cbn [combine filter map keep fst].
      destruct (used_key names k); cbn [combine]; rewrite IH; reflexivity.
Qed.

Lemma assoc_select (mask : list bool) (df : DataFrame) (col : string) :
  assoc col (select_rows mask df) = option_map (keep_rows mask) (assoc col df).
Proof.
  induction df as [|[c s] rest IH]; simpl; [reflexivity|].
  destruct (String.eqb c col); [reflexivity | exact IH].
Qed.

Lemma setitem_select (mask : list bool) (df : DataFrame) (c : string)
    (s : Series) :
  df_setitem (select_rows mask df) c (keep_rows mask s) =
  select_rows mask (df_setitem df c s).
Proof.
  induction df as [|[c' s'] rest IH]; simpl; [reflexivity|].
  destruct (String.eqb c' c); simpl; [reflexivity|].
  f_equal. exact IH.
Qed.

Lemma drop_select (mask : list bool) (df : DataFrame) (c : string) :
  df_drop (select_rows mask df) c = select_rows mask (df_drop df c).
Proof.
  induction df as [|[c' s'] rest IH]; simpl; [reflexivity|].
  destruct (String.eqb c' c); simpl; [reflexivity|].
  f_equal. exact IH.
Qed.

(** The lookup of the table without its orphan rows is the lookup of the
    table without the entries of those rows. *)
Lemma build_lookup_named_rows (names : list string) (meta_df : DataFrame)
    (t : lookup_table) :
  build_lookup meta_df = Ok t ->
  build_lookup (named_rows names meta_df) = Ok (restrict names t).
Proof.
  intros Hbuild.
  destruct (build_lookup_inv _ Hbuild) as [l [Hfn [Hu ->]]].
  set (keys := map (option_map strip_audio_prefix) l) in *.
  set (mask := map (used_key names) keys).
  assert (Hnamed : named_rows names meta_df = select_rows mask meta_df).
  { unfold named_rows, basenames_of. rewrite Hfn. reflexivity. }
  rewrite Hnamed. unfold build_lookup, df_getitem.
  rewrite assoc_select.
  unfold df_getitem in Hfn.
  destruct (assoc "filename" meta_df) as [fn|]; [|discriminate Hfn].
  injection Hfn as ->. cbn [option_map keep_rows bind str_replace_audio].
  rewrite <- keep_map. fold keys.
  change (ObjectCol (keep mask keys)) with (keep_rows mask (ObjectCol keys)).
  rewrite setitem_select, drop_select.
  unfold to_dict_index.
  assert (Hu' : is_unique (keep mask keys) = true).
  { apply is_unique_NoDup, keep_NoDup, is_unique_NoDup. exact Hu. }
  rewrite Hu'. f_equal.
  rewrite !to_dict_combine, restrict_combine. fold mask.
  assert (Hlen : List.length keys = List.length mask).
  { unfold mask. rewrite length_map. reflexivity. }
  rewrite (keep_length mask keys Hlen).
  change (map (row_at ?d) (seq 0 ?n)) with (table_rows d n).
  rewrite table_rows_select, Hlen. reflexivity.
Qed.

(** C10, as stated, fails for tables as files. The two metadata files
    differ only in a row for [z9.wav], which no group of the annotation
    document names, and both have distinct basenames. In the first the
    column [identifier] holds numerals only and is read as integers; the
    orphan row of the second makes it a text column. The record of
    [a1.wav] has the integer 123 as audio_identifier in one run and the
    string [123] in the other. *)
Lemma orphan_row_changes_a_column_type :
  numbered_csv_with_orphan =
    numbered_csv ++ render comma [["audio/z9.wav"; "mall"; "abc"; "src9"]] /\
  group_names (Ok scenario_doc) = ["a1.wav"] /\
  (forall quote_regexps chunked_guess,
     convert_macs_to_hf "root"
       (smart_read_csv quote_regexps chunked_guess typed_reader
          (Ok numbered_csv)) (Ok scenario_doc) =
     Ok [{| filename := "a1.wav"; scene := VStr "park";
            audio := "root/a1.wav"; captions := [VStr "birds chirping"];
            tags := [VList [VStr "nature"]]; annotators := [VInt 3];
            audio_identifier := VInt 123;
            audio_source_label := VStr "src1" |}]) /\
  (forall quote_regexps chunked_guess,
     convert_macs_to_hf "root"
       (smart_read_csv quote_regexps chunked_guess typed_reader
          (Ok numbered_csv_with_orphan)) (Ok scenario_doc) =
     Ok [{| filename := "a1.wav"; scene := VStr "park";
            audio := "root/a1.wav"; captions := [VStr "birds chirping"];
            tags := [VList [VStr "nature"]]; annotators := [VInt 3];
            audio_identifier := VStr "123";
            audio_source_label := VStr "src1" |}]) /\
  convert_macs_to_hf "root"
    (smart_read_csv (fun _ _ => None) (fun _ _ => None) typed_reader
       (Ok numbered_csv)) (Ok scenario_doc) <>
  convert_macs_to_hf "root"
    (smart_read_csv (fun _ _ => None) (fun _ _ => None) typed_reader
       (Ok numbered_csv_with_orphan)) (Ok scenario_doc).
Proof.
  split; [reflexivity|]. split; [reflexivity|].
  split; [intros quote_regexps chunked_guess; reflexivity|].
  split; [intros quote_regexps chunked_guess; reflexivity|].
  vm_compute. discriminate.
Qed.

(** C10, amended. For two parsed metadata tables whose lookups build
    (distinct basenames) and which are the same table once the rows whose
    basename no group names are removed (same columns, same column types,
    same cells), the run gives the same outcome, rows or exception, for
    every audio root and annotation document. *)
Theorem orphan_rows_of_a_parsed_table_have_no_effect (audio_root : string)
    (meta_df1 meta_df2 : DataFrame) (t1 t2 : lookup_table)
    (yaml_read : result value) :
  build_lookup meta_df1 = Ok t1 ->
  build_lookup meta_df2 = Ok t2 ->
  named_rows (group_names yaml_read) meta_df1 =
  named_rows (group_names yaml_read) meta_df2 ->
  convert_macs_to_hf audio_root (Ok meta_df1) yaml_read =
  convert_macs_to_hf audio_root (Ok meta_df2) yaml_read.
Proof.
  intros H1 H2 Hsame.
  apply (@same_named_entries_same_outcome audio_root meta_df1 meta_df2 t1 t2
           yaml_read H1 H2).
  pose proof (@build_lookup_named_rows (group_names yaml_read) _ _ H1) as E1.
  pose proof (@build_lookup_named_rows (group_names yaml_read) _ _ H2) as E2.
  rewrite Hsame, E2 in E1. injection E1 as E1. symmetry. exact E1.
Qed.

Lemma orphan_rows_of_a_parsed_table_have_no_effect_witness :
  convert_macs_to_hf "root" (Ok scenario_meta) (Ok scenario_doc) =
  convert_macs_to_hf "root" (Ok wider_meta) (Ok scenario_doc).
Proof.
  apply (@orphan_rows_of_a_parsed_table_have_no_effect "root" scenario_meta
           wider_meta
           [(Some "a1.wav", row_at scenario_meta 0)]
           [(Some "z9.wav", row_at wider_meta 0);
            (Some "a1.wav", row_at wider_meta 1)]
           (Ok scenario_doc));
    reflexivity.
Defined.
